(** * camera-file-sorting: a shallow embedding of [main.py]

    The script sorts camera media from a source tree into an event folder.
    This development embeds its functions as Rocq definitions, one per
    Python function, and states the properties of the written
    specification over them.

    What the model takes from the platform: paths are POSIX paths; the
    text methods act on ASCII letters, digits and blanks; the workers of
    the two thread pools are taken one at a time, in the order in which
    they complete, an order that the theorems leave arbitrary; [time.sleep]
    and the progress bar have no counterpart.

    Layout of the file:
    - [PyStr]: the [str] methods and [os.path] helpers the script calls;
    - [PyTime]: [datetime.date], [datetime.datetime] and [strptime];
    - [PyJson]: the values [json.loads] can return and the operations the
      script applies to them;
    - the effect monad [M] over an abstract operating system [OS];
    - the functions of [main.py], in source order;
    - [Sim] and [Demo]: a small executable file system and sample cards,
      used for concrete runs;
    - the vocabulary of the statements;
    - the theorems. *)

From Stdlib Require Import String Ascii List ZArith Lia Bool Permutation DecimalString.
Import ListNotations.
Set Warnings "-register-all".
Open Scope string_scope.
Open Scope Z_scope.

(* ===================================================================== *)
(** ** Python [str] and [os.path] *)
(* ===================================================================== *)

(** A Python [str] is modelled by a Rocq [string] holding its UTF-8
    encoding.  The methods below act on the ASCII range: whitespace, digits
    and letter case outside ASCII are left alone.  [str.replace], [in] and
    [str.split] are exact on UTF-8 text. *)
Module PyStr.

Definition nonempty (s : string) : bool :=
  match s with EmptyString => false | String _ _ => true end.

(** [str.isspace] on one ASCII character: TAB, LF, VT, FF, CR, FS, GS, RS,
    US and SPACE. *)
Definition is_space (c : ascii) : bool :=
  let n := Z.of_nat (nat_of_ascii c) in
  ((9 <=? n) && (n <=? 13)) || ((28 <=? n) && (n <=? 32)).

Fixpoint lstrip (s : string) : string :=
  match s with
  | EmptyString => EmptyString
  | String c s' => if is_space c then lstrip s' else s
  end.

Fixpoint rstrip (s : string) : string :=
  match s with
  | EmptyString => EmptyString
  | String c s' =>
      let r := rstrip s' in
      if is_space c && negb (nonempty r) then EmptyString else String c r
  end.

(** [s.strip()] *)
Definition strip (s : string) : string := rstrip (lstrip s).

Definition lower_char (c : ascii) : ascii :=
  let n := nat_of_ascii c in
  if (65 <=? n)%nat && (n <=? 90)%nat then ascii_of_nat (n + 32) else c.

Definition upper_char (c : ascii) : ascii :=
  let n := nat_of_ascii c in
  if (97 <=? n)%nat && (n <=? 122)%nat then ascii_of_nat (n - 32) else c.

Fixpoint map_chars (f : ascii -> ascii) (s : string) : string :=
  match s with
  | EmptyString => EmptyString
  | String c s' => String (f c) (map_chars f s')
  end.

(** [s.lower()] and [s.upper()] *)
Definition lower : string -> string := map_chars lower_char.
Definition upper : string -> string := map_chars upper_char.

(** [s.startswith(p)] *)
Fixpoint startswith (p s : string) : bool :=
  match p, s with
  | EmptyString, _ => true
  | String a p', String b s' => Ascii.eqb a b && startswith p' s'
  | String _ _, EmptyString => false
  end.

(** [s.endswith(c)] for a one-character suffix. *)
Fixpoint endswith_char (c : ascii) (s : string) : bool :=
  match s with
  | EmptyString => false
  | String a EmptyString => Ascii.eqb a c
  | String _ s' => endswith_char c s'
  end.

(** [sub in s] *)
Fixpoint contains (sub s : string) : bool :=
  startswith sub s
  || match s with
     | EmptyString => false
     | String _ s' => contains sub s'
     end.

(** [s[n:]] *)
Fixpoint drop (n : nat) (s : string) : string :=
  match n, s with
  | O, _ => s
  | S _, EmptyString => EmptyString
  | S k, String _ s' => drop k s'
  end.

(** [s[:n]] *)
Fixpoint take (n : nat) (s : string) : string :=
  match n, s with
  | O, _ => EmptyString
  | S _, EmptyString => EmptyString
  | S k, String c s' => String c (take k s')
  end.

(** [s.replace(old, new)] for a non-empty [old]: occurrences are found
    left to right and do not overlap.  [skip] counts the characters of
    the occurrence just matched that are still to be passed over. *)
Fixpoint replace_from (old new s : string) (skip : nat) : string :=
  match s with
  | EmptyString => EmptyString
  | String c s' =>
      match skip with
      | S k => replace_from old new s' k
      | O =>
          if startswith old s
          then new ++ replace_from old new s' (String.length old - 1)
          else String c (replace_from old new s' O)
      end
  end.

Definition replace (old new s : string) : string := replace_from old new s O.

(** [s.split(sep)] for a non-empty [sep]; the result is never empty. *)
Fixpoint split_from (sep s : string) (skip : nat) : list string :=
  match s with
  | EmptyString => [EmptyString]
  | String c s' =>
      match skip with
      | S k => split_from sep s' k
      | O =>
          if startswith sep s
          then EmptyString :: split_from sep s' (String.length sep - 1)
          else match split_from sep s' O with
               | p :: ps => String c p :: ps
               | [] => [String c EmptyString]
               end
      end
  end.

Definition split (sep s : string) : list string := split_from sep s O.

(** [x in {...}] for a set of strings. *)
Definition set_in (x : string) (xs : list string) : bool :=
  existsb (String.eqb x) xs.

(** [s.rfind(c)] for one character: the last index, or [-1]. *)
Fixpoint rfind_from (c : ascii) (s : string) (i : Z) (last : Z) : Z :=
  match s with
  | EmptyString => last
  | String a s' => rfind_from c s' (i + 1) (if Ascii.eqb a c then i else last)
  end.

Definition rfind (c : ascii) (s : string) : Z := rfind_from c s 0 (-1).

Fixpoint all_dots (s : string) : bool :=
  match s with
  | EmptyString => true
  | String a s' => Ascii.eqb a "." && all_dots s'
  end.

(** [os.path.splitext(p)[1]] (posixpath): the extension starts at the last
    dot, provided that dot comes after the last separator and something
    other than dots lies between the two. *)
Definition splitext_ext (p : string) : string :=
  let sepIndex := rfind "/" p in
  let dotIndex := rfind "." p in
  if (sepIndex <? dotIndex)
     && negb (all_dots (take (Z.to_nat (dotIndex - (sepIndex + 1)))
                             (drop (Z.to_nat (sepIndex + 1)) p)))
  then drop (Z.to_nat dotIndex) p
  else EmptyString.

(** [os.path.basename(p)] *)
Definition basename (p : string) : string :=
  drop (Z.to_nat (rfind "/" p + 1)) p.

(** One step of [os.path.join] (posixpath). *)
Definition join2 (path b : string) : string :=
  if startswith "/" b then b
  else if negb (nonempty path) || endswith_char "/" path then path ++ b
  else path ++ "/" ++ b.

(** [os.path.join(a, *p)] *)
Definition join (a : string) (p : list string) : string := fold_left join2 p a.

End PyStr.

(* ===================================================================== *)
(** ** [datetime] and [strptime] *)
(* ===================================================================== *)

Module PyTime.

(** [datetime.date] *)
Record date := mkdate { year : Z; month : Z; day : Z }.

(** [datetime.datetime]; the script never looks below the second. *)
Record datetime := mkdatetime
  { dt_date : date; hour : Z; minute : Z; second : Z }.

(** [dt.date()] *)
Definition date_of (dt : datetime) : date := dt_date dt.

(** [a <= b] on dates: Python compares (year, month, day). *)
Definition date_leb (a b : date) : bool :=
  (year a <? year b)
  || ((year a =? year b)
      && ((month a <? month b)
          || ((month a =? month b) && (day a <=? day b)))).

Definition date_eqb (a b : date) : bool :=
  (year a =? year b) && (month a =? month b) && (day a =? day b).

Definition is_leap (y : Z) : bool :=
  ((y mod 4 =? 0) && negb (y mod 100 =? 0)) || (y mod 400 =? 0).

Definition days_in_month (y m : Z) : Z :=
  if m =? 2 then (if is_leap y then 29 else 28)
  else if (m =? 4) || (m =? 6) || (m =? 9) || (m =? 11) then 30
  else 31.

(** The range checks of the [datetime] constructor ([MINYEAR = 1],
    [MAXYEAR = 9999]). *)
Definition valid_date (d : date) : bool :=
  (1 <=? year d) && (year d <=? 9999)
  && (1 <=? month d) && (month d <=? 12)
  && (1 <=? day d) && (day d <=? days_in_month (year d) (month d)).

Definition valid_datetime (dt : datetime) : bool :=
  valid_date (dt_date dt)
  && (0 <=? hour dt) && (hour dt <=? 23)
  && (0 <=? minute dt) && (minute dt <=? 59)
  && (0 <=? second dt) && (second dt <=? 59).

(** *** [strptime]

    [_strptime] turns the format into a regular expression: each
    directive becomes an alternation of fixed character-class sequences,
    a run of whitespace becomes [\s+], any other character stands for
    itself.  The expression is matched at the start of the text with the
    usual leftmost-alternative-first backtracking, and text left over
    after the match is an error.  The tables are CPython's. *)

Inductive directive := Dir_d | Dir_m | Dir_Y | Dir_H | Dir_M | Dir_S.

Inductive fmt_item :=
| Dir (d : directive)
| Lit (c : ascii)
| Ws.

(** A character class is an inclusive range of characters. *)
Definition cclass := (ascii * ascii)%type.

Definition in_class (k : cclass) (c : ascii) : bool :=
  let n := nat_of_ascii c in
  (nat_of_ascii (fst k) <=? n)%nat && (n <=? nat_of_ascii (snd k))%nat.

Definition one (c : ascii) : cclass := (c, c).
Definition digit : cclass := ("0"%char, "9"%char).
Definition rng (a b : ascii) : cclass := (a, b).

Definition alternatives (d : directive) : list (list cclass) :=
  match d with
  | Dir_d => [ [one "3"; rng "0" "1"]; [rng "1" "2"; digit]; [one "0"; rng "1" "9"];
               [rng "1" "9"]; [one " "; rng "1" "9"] ]
  | Dir_m => [ [one "1"; rng "0" "2"]; [one "0"; rng "1" "9"]; [rng "1" "9"] ]
  | Dir_Y => [ [digit; digit; digit; digit] ]
  | Dir_H => [ [one "2"; rng "0" "3"]; [rng "0" "1"; digit]; [digit] ]
  | Dir_M => [ [rng "0" "5"; digit]; [digit] ]
  | Dir_S => [ [one "6"; rng "0" "1"]; [rng "0" "5"; digit]; [digit] ]
  end.

(** Match a sequence of classes at the start of [s]; the value is
    [int(matched text)], where a leading blank counts for nothing. *)
Fixpoint match_classes (ks : list cclass) (s : string) (acc : Z) : option (Z * string) :=
  match ks with
  | [] => Some (acc, s)
  | k :: ks' =>
      match s with
      | EmptyString => None
      | String c s' =>
          if in_class k c
          then match_classes ks' s'
                 (if in_class digit c
                  then 10 * acc + (Z.of_nat (nat_of_ascii c) - 48)
                  else acc)
          else None
      end
  end.

(** The fields collected by the match, with [strptime]'s defaults. *)
Record fields := mkfields
  { f_Y : Z; f_m : Z; f_d : Z; f_H : Z; f_M : Z; f_S : Z }.

Definition default_fields : fields := mkfields 1900 1 1 0 0 0.

Definition set_field (d : directive) (v : Z) (f : fields) : fields :=
  match d with
  | Dir_d => mkfields (f_Y f) (f_m f) v (f_H f) (f_M f) (f_S f)
  | Dir_m => mkfields (f_Y f) v (f_d f) (f_H f) (f_M f) (f_S f)
  | Dir_Y => mkfields v (f_m f) (f_d f) (f_H f) (f_M f) (f_S f)
  | Dir_H => mkfields (f_Y f) (f_m f) (f_d f) v (f_M f) (f_S f)
  | Dir_M => mkfields (f_Y f) (f_m f) (f_d f) (f_H f) v (f_S f)
  | Dir_S => mkfields (f_Y f) (f_m f) (f_d f) (f_H f) (f_M f) v
  end.

Fixpoint first_some {A B : Type} (f : A -> option B) (l : list A) : option B :=
  match l with
  | [] => None
  | x :: l' => match f x with Some y => Some y | None => first_some f l' end
  end.

(** What can remain after [\s+]: one or more blanks consumed, the
    longest run tried first. *)
Fixpoint after_blanks (s : string) : list string :=
  match s with
  | EmptyString => []
  | String c s' => if PyStr.is_space c then after_blanks s' ++ [s'] else []
  end.

(** The regular-expression match: the first successful way through the
    format, with what is left of the text. *)
Fixpoint match_format (fmt : list fmt_item) (s : string) (f : fields)
  : option (fields * string) :=
  match fmt with
  | [] => Some (f, s)
  | Lit c :: fmt' =>
      match s with
      | String a s' => if Ascii.eqb a c then match_format fmt' s' f else None
      | EmptyString => None
      end
  | Ws :: fmt' =>
      first_some (fun rest => match_format fmt' rest f) (after_blanks s)
  | Dir d :: fmt' =>
      first_some
        (fun ks =>
           match match_classes ks s 0 with
           | Some (v, rest) => match_format fmt' rest (set_field d v f)
           | None => None
           end)
        (alternatives d)
  end.

(** [datetime.datetime.strptime(s, fmt)]: [None] stands for the
    [ValueError] raised when the text does not match, when text is left
    over, or when the fields do not make a date and time. *)
Definition strptime (s : string) (fmt : list fmt_item) : option datetime :=
  match match_format fmt s default_fields with
  | Some (f, EmptyString) =>
      let dt := mkdatetime (mkdate (f_Y f) (f_m f) (f_d f)) (f_H f) (f_M f) (f_S f) in
      if valid_datetime dt then Some dt else None
  | _ => None
  end.

(** ["%d/%m/%Y"] *)
Definition fmt_dmy : list fmt_item :=
  [Dir Dir_d; Lit "/"; Dir Dir_m; Lit "/"; Dir Dir_Y].

(** ["%Y:%m:%d %H:%M:%S"] *)
Definition fmt_exif_colon : list fmt_item :=
  [Dir Dir_Y; Lit ":"; Dir Dir_m; Lit ":"; Dir Dir_d; Ws;
   Dir Dir_H; Lit ":"; Dir Dir_M; Lit ":"; Dir Dir_S].

(** ["%Y-%m-%d %H:%M:%S"] *)
Definition fmt_exif_hyphen : list fmt_item :=
  [Dir Dir_Y; Lit "-"; Dir Dir_m; Lit "-"; Dir Dir_d; Ws;
   Dir Dir_H; Lit ":"; Dir Dir_M; Lit ":"; Dir Dir_S].

End PyTime.

(* ===================================================================== *)
(** ** Exceptions and the values of [json.loads] *)
(* ===================================================================== *)

(** The exception classes that can arise in the script; all derive from
    [Exception].  [OSError] carries the name of its subclass. *)
Inductive exn :=
| ValueError
| TypeError
| AttributeError
| KeyError
| IndexError
| JSONDecodeError
| EOFError
| UnboundLocalError
| OSError (what : string).

(** A call either returns or raises. *)
Inductive result (A : Type) :=
| Ok (a : A)
| Raise (e : exn).
Arguments Ok {A} a.
Arguments Raise {A} e.

Definition res_bind {A B : Type} (r : result A) (k : A -> result B) : result B :=
  match r with
  | Ok a => k a
  | Raise e => Raise e
  end.

Declare Scope res_scope.
Delimit Scope res_scope with res.
Notation "x <- c1 ;; c2" := (res_bind c1 (fun x => c2))
  (at level 61, c1 at next level, right associativity) : res_scope.

Module PyJson.

(** What [json.loads] builds: [None], [bool], [int], [float] (here a
    decimal [m * 10^e]), [str], [list] and [dict] (with [str] keys, each
    key once). *)
Inductive json :=
| JNull
| JBool (b : bool)
| JInt (z : Z)
| JFloat (m e : Z)
| JStr (s : string)
| JList (l : list json)
| JDict (kv : list (string * json)).

(** Python truth value. *)
Definition truthy (v : json) : bool :=
  match v with
  | JNull => false
  | JBool b => b
  | JInt z => negb (z =? 0)
  | JFloat m _ => negb (m =? 0)
  | JStr s => PyStr.nonempty s
  | JList l => match l with [] => false | _ :: _ => true end
  | JDict kv => match kv with [] => false | _ :: _ => true end
  end.

(** [len(v)] *)
Definition len (v : json) : result Z :=
  match v with
  | JStr s => Ok (Z.of_nat (String.length s))
  | JList l => Ok (Z.of_nat (List.length l))
  | JDict kv => Ok (Z.of_nat (List.length kv))
  | JNull | JBool _ | JInt _ | JFloat _ _ => Raise TypeError
  end.

(** [v[0]]: a [dict] built by [json.loads] has no key [0]. *)
Definition getitem0 (v : json) : result json :=
  match v with
  | JList (x :: _) => Ok x
  | JList [] => Raise IndexError
  | JStr (String c _) => Ok (JStr (String c EmptyString))
  | JStr EmptyString => Raise IndexError
  | JDict _ => Raise KeyError
  | JNull | JBool _ | JInt _ | JFloat _ _ => Raise TypeError
  end.

Fixpoint lookup (key : string) (kv : list (string * json)) : json :=
  match kv with
  | [] => JNull
  | (k, v) :: kv' => if String.eqb k key then v else lookup key kv'
  end.

(** [v.get(key)]: only a [dict] has the method. *)
Definition get (v : json) (key : string) : result json :=
  match v with
  | JDict kv => Ok (lookup key kv)
  | _ => Raise AttributeError
  end.

(** [v.strip()]: only a [str] has the method. *)
Definition strip (v : json) : result string :=
  match v with
  | JStr s => Ok (PyStr.strip s)
  | _ => Raise AttributeError
  end.

(** [datetime.datetime.strptime(v, fmt)]: [TypeError] unless [v] is a
    [str], [ValueError] when the text does not parse. *)
Definition strptime (v : json) (fmt : list PyTime.fmt_item) : result PyTime.datetime :=
  match v with
  | JStr s =>
      match PyTime.strptime s fmt with
      | Some dt => Ok dt
      | None => Raise ValueError
      end
  | _ => Raise TypeError
  end.

End PyJson.

(* ===================================================================== *)
(** ** The operating system and the effect monad *)
(* ===================================================================== *)

(** What [subprocess.run] hands back.  The captured standard output is
    only ever given to [json.loads], so it is represented by what
    [json.loads] makes of it: [None] when it raises [JSONDecodeError]. *)
Record completed_process := mkproc
  { returncode : Z; stdout_json : option PyJson.json }.

(** The library calls that reach outside the process, over a state [fs] of
    the file system.  Nothing is assumed about them: each may fail. *)
Record OS (fs : Type) := mkOS
  { os_path_exists : string -> fs -> bool;
    os_makedirs : string -> fs -> result unit * fs;
    shutil_copy2 : string -> string -> fs -> result unit * fs;
    os_path_getsize : string -> fs -> result Z;
    (** the modification time, in seconds *)
    os_path_getmtime : string -> fs -> result Z;
    (** [datetime.datetime.fromtimestamp], in the local time zone *)
    fromtimestamp : Z -> PyTime.datetime;
    (** [os.walk(top)]: the [(root, files)] of each directory visited *)
    os_walk : string -> fs -> list (string * list string);
    (** [subprocess.run(["exiftool", "-j", "-n", "-Model",
        "-DateTimeOriginal", path], capture_output=True, text=True)] *)
    run_exiftool : string -> fs -> result completed_process }.

Arguments os_path_exists {fs} _ _ _.
Arguments os_makedirs {fs} _ _ _.
Arguments shutil_copy2 {fs} _ _ _ _.
Arguments os_path_getsize {fs} _ _ _.
Arguments os_path_getmtime {fs} _ _ _.
Arguments fromtimestamp {fs} _ _.
Arguments os_walk {fs} _ _ _.
Arguments run_exiftool {fs} _ _ _.

(** The calls made to the operating system, in order. *)
Inductive syscall :=
| SysExists (path : string)
| SysMakedirs (path : string)
| SysCopy2 (src dst : string)
| SysGetsize (path : string)
| SysGetmtime (path : string)
| SysWalk (top : string)
| SysExiftool (path : string).

(** A line written to the terminal: the text of a [print] or the prompt of
    an [input]; [LineExn pre e] is [pre] followed by [str(e)]. *)
Inductive line :=
| Line (s : string)
| LineExn (pre : string) (e : exn)
| Prompt (s : string).

Record world (fs : Type) := mkworld
  { w_fs : fs;
    w_stdin : list string;
    w_stdout : list line;
    w_trace : list syscall }.
Arguments mkworld {fs} _ _ _ _.
Arguments w_fs {fs} _.
Arguments w_stdin {fs} _.
Arguments w_stdout {fs} _.
Arguments w_trace {fs} _.

(** A computation runs in a world and leaves one behind, also when it
    raises. *)
Definition M (fs A : Type) : Type := world fs -> result A * world fs.

Definition ret {fs A : Type} (a : A) : M fs A := fun w => (Ok a, w).

Definition raise {fs A : Type} (e : exn) : M fs A := fun w => (Raise e, w).

Definition bind {fs A B : Type} (c : M fs A) (k : A -> M fs B) : M fs B :=
  fun w =>
    match c w with
    | (Ok a, w') => k a w'
    | (Raise e, w') => (Raise e, w')
    end.

(** [try: c  except Exception as e: h e] *)
Definition try_except {fs A : Type} (c : M fs A) (h : exn -> M fs A) : M fs A :=
  fun w =>
    match c w with
    | (Ok a, w') => (Ok a, w')
    | (Raise e, w') => h e w'
    end.

Definition lift {fs A : Type} (r : result A) : M fs A := fun w => (r, w).

Declare Scope py_scope.
Delimit Scope py_scope with py.
Notation "x <- c1 ;; c2" := (bind c1 (fun x => c2))
  (at level 61, c1 at next level, right associativity) : py_scope.
Notation "c1 ;; c2" := (bind c1 (fun _ => c2))
  (at level 61, right associativity) : py_scope.
Open Scope py_scope.

Section Primitives.
Context {fs : Type} (os : OS fs).

Definition emit (c : syscall) (w : world fs) : world fs :=
  mkworld (w_fs w) (w_stdin w) (w_stdout w) (w_trace w ++ [c])%list.

Definition with_fs (s : fs) (w : world fs) : world fs :=
  mkworld s (w_stdin w) (w_stdout w) (w_trace w).

Definition say (l : line) (w : world fs) : world fs :=
  mkworld (w_fs w) (w_stdin w) (w_stdout w ++ [l])%list (w_trace w).

(** [print(l)] *)
Definition print (l : line) : M fs unit := fun w => (Ok tt, say l w).

(** [input(prompt)]: the prompt is written, one line is read;
    [EOFError] at the end of the input. *)
Definition input (prompt : string) : M fs string :=
  fun w =>
    let out := (w_stdout w ++ [Prompt prompt])%list in
    match w_stdin w with
    | [] => (Raise EOFError, mkworld (w_fs w) [] out (w_trace w))
    | l :: rest => (Ok l, mkworld (w_fs w) rest out (w_trace w))
    end.

Definition path_exists (p : string) : M fs bool :=
  fun w => (Ok (os_path_exists os p (w_fs w)), emit (SysExists p) w).

Definition makedirs (p : string) : M fs unit :=
  fun w =>
    let '(r, s) := os_makedirs os p (w_fs w) in
    (r, with_fs s (emit (SysMakedirs p) w)).

Definition copy2 (src dst : string) : M fs unit :=
  fun w =>
    let '(r, s) := shutil_copy2 os src dst (w_fs w) in
    (r, with_fs s (emit (SysCopy2 src dst) w)).

Definition getsize (p : string) : M fs Z :=
  fun w => (os_path_getsize os p (w_fs w), emit (SysGetsize p) w).

Definition getmtime (p : string) : M fs Z :=
  fun w => (os_path_getmtime os p (w_fs w), emit (SysGetmtime p) w).

Definition walk (top : string) : M fs (list (string * list string)) :=
  fun w => (Ok (os_walk os top (w_fs w)), emit (SysWalk top) w).

Definition subprocess_run (file_path : string) : M fs completed_process :=
  fun w => (run_exiftool os file_path (w_fs w), emit (SysExiftool file_path) w).

(** [json.loads(result.stdout)] *)
Definition json_loads (p : completed_process) : result PyJson.json :=
  match stdout_json p with
  | Some v => Ok v
  | None => Raise JSONDecodeError
  end.

End Primitives.

(* ===================================================================== *)
(** ** The functions of [main.py] *)
(* ===================================================================== *)

(** The dict returned by [exiftool_get_metadata]: the ["model"] entry is
    whatever JSON value ExifTool printed for [Model]. *)
Record metadata := mkmeta
  { model : PyJson.json;
    datetime_original : option PyTime.datetime }.

(** A task tuple, as built at line 229. *)
Record task := mktask
  { t_root : string;
    t_file_name : string;
    t_photography_main : string;
    t_videography_main : string;
    t_photo_exts : list string;
    t_video_exts : list string }.

(** The en dash U+2013 and the em dash U+2014, in UTF-8. *)
Definition en_dash : string :=
  String (ascii_of_nat 226) (String (ascii_of_nat 128) (String (ascii_of_nat 147) "")).
Definition em_dash : string :=
  String (ascii_of_nat 226) (String (ascii_of_nat 128) (String (ascii_of_nat 148) "")).

Definition nl : string := String (ascii_of_nat 10) "".

(** [str(n)] for an integer. *)
Definition str_of_Z (n : Z) : string :=
  NilZero.string_of_int (Z.to_int n).

Section Script.
Context {fs : Type} (os : OS fs).

(** Lines 38-45: the loop over the two layouts; the first that parses
    wins, a [ValueError] moves on to the next, any other exception
    leaves the loop. *)
Fixpoint try_formats (dt_original_str : PyJson.json) (fmts : list (list PyTime.fmt_item))
  : result (option PyTime.datetime) :=
  match fmts with
  | [] => Ok None
  | fmt :: rest =>
      match PyJson.strptime dt_original_str fmt with
      | Ok dt => Ok (Some dt)
      | Raise ValueError => try_formats dt_original_str rest
      | Raise e => Raise e
      end
  end.

(** Lines 25-50: from the finished process to the returned dict.  No
    effect happens here; every step may raise. *)
Definition read_metadata (completed : completed_process) : result (option metadata) :=
  if negb (returncode completed =? 0) then Ok None
  else
    (data <- json_loads completed ;;
     empty <- (if negb (PyJson.truthy data) then Ok true
               else n <- PyJson.len data ;; Ok (n =? 0)) ;;
     if (empty : bool) then Ok None
     else
       info <- PyJson.getitem0 data ;;
       camera_model <- PyJson.get info "Model" ;;
       dt_original_str <- PyJson.get info "DateTimeOriginal" ;;
       dt_original <-
         (if PyJson.truthy dt_original_str
          then try_formats dt_original_str
                 [PyTime.fmt_exif_colon; PyTime.fmt_exif_hyphen]
          else Ok None) ;;
       Ok (Some (mkmeta camera_model dt_original)))%res.

(** Lines 16-54. *)
Definition exiftool_get_metadata (file_path : string) : M fs (option metadata) :=
  try_except
    (completed <- subprocess_run os file_path ;;
     lift (read_metadata completed))
    (fun e =>
       print (LineExn ("Error extracting metadata from " ++ file_path ++ ": ") e) ;;
       ret None).

(** Lines 61-63: [meta] is [None] or a dict, which is true as it has two
    keys; the test is then on [meta["model"]]. *)
Definition identity_of (meta : option metadata) : result (option string) :=
  match meta with
  | Some m =>
      if PyJson.truthy (model m)
      then (s <- PyJson.strip (model m) ;; Ok (Some s))%res
      else Ok None
  | None => Ok None
  end.

(** Lines 56-63. *)
Definition extract_camera_model (file_path : string) : M fs (option string) :=
  meta <- exiftool_get_metadata file_path ;;
  lift (identity_of meta).

(** Lines 75-77: the fallback. *)
Definition file_mtime (file_path : string) : M fs PyTime.datetime :=
  mod_time <- getmtime os file_path ;;
  ret (fromtimestamp os mod_time).

(** [meta and meta["datetime_original"]]: a [datetime] is always true. *)
Definition embedded_date (meta : option metadata) : option PyTime.datetime :=
  match meta with
  | Some m => datetime_original m
  | None => None
  end.

(** Lines 65-77. *)
Definition get_file_date (file_path ext : string) (photo_extensions : list string)
  : M fs PyTime.datetime :=
  if PyStr.set_in ext photo_extensions
  then
    meta <- exiftool_get_metadata file_path ;;
    match embedded_date meta with
    | Some dt => ret dt
    | None => file_mtime file_path
    end
  else file_mtime file_path.

(** Lines 79-81. *)
Definition create_directory (path : string) : M fs unit :=
  e <- path_exists os path ;;
  if negb e then makedirs os path else ret tt.

(** Lines 83-96. *)
Definition secure_copy (source_file_path target_file_path : string) : M fs bool :=
  try_except
    (copy2 os source_file_path target_file_path ;;
     a <- getsize os source_file_path ;;
     b <- getsize os target_file_path ;;
     if a =? b then ret true
     else
       print (Line ("Warning: Size mismatch for " ++ PyStr.basename source_file_path)) ;;
       ret false)
    (fun e =>
       print (LineExn ("Error copying " ++ source_file_path ++ " to "
                       ++ target_file_path ++ ": ") e) ;;
       ret false).

(** Lines 104 and 107-112: where a file goes, [None] for a file that is
    neither photo nor video. *)
Definition target_folder (t : task) : option string :=
  let ext := PyStr.lower (PyStr.splitext_ext (t_file_name t)) in
  if PyStr.set_in ext (t_photo_exts t)
  then Some (PyStr.join (t_photography_main t) [PyStr.upper (PyStr.drop 1 ext)])
  else if PyStr.set_in ext (t_video_exts t)
  then Some (PyStr.join (t_videography_main t) [PyStr.upper (PyStr.drop 1 ext)])
  else None.

(** Lines 98-117. *)
Definition process_file (t : task) : M fs (bool * string) :=
  let file_name := t_file_name t in
  let source_file_path := PyStr.join (t_root t) [file_name] in
  match target_folder t with
  | None => ret (false, file_name)
  | Some target_folder =>
      create_directory target_folder ;;
      let target_file_path := PyStr.join target_folder [file_name] in
      success <- secure_copy source_file_path target_file_path ;;
      ret (success, file_name)
  end.

(** [datetime.datetime.strptime(s, "%d/%m/%Y").date()] *)
Definition strptime_dmy (s : string) : result PyTime.date :=
  match PyTime.strptime s PyTime.fmt_dmy with
  | Some dt => Ok (PyTime.date_of dt)
  | None => Raise ValueError
  end.

(** Lines 125-136: the body of the [try]. *)
Definition parse_date_range (date_input : string) : result (PyTime.date * PyTime.date) :=
  if PyStr.contains "-" date_input
  then
    let date_input :=
      fold_left (fun s dash => PyStr.replace dash "-" s) [en_dash; em_dash] date_input in
    let parts :=
      if PyStr.contains " - " date_input
      then PyStr.split " - " date_input
      else PyStr.split "-" date_input in
    match parts with
    | [p0; p1] =>
        (start_date <- strptime_dmy (PyStr.strip p0) ;;
         end_date <- strptime_dmy (PyStr.strip p1) ;;
         Ok (start_date, end_date))%res
    | _ => Raise ValueError
    end
  else
    (single_date <- strptime_dmy (PyStr.strip date_input) ;;
     Ok (single_date, single_date))%res.

(** Lines 119-139. *)
Definition parse_date_input (date_input : string)
  : M fs (option PyTime.date * option PyTime.date) :=
  try_except
    (r <- lift (parse_date_range date_input) ;;
     ret (Some (fst r), Some (snd r)))
    (fun e =>
       print (LineExn "Error parsing date input: " e) ;;
       ret (None, None)).

(** Lines 155-162: the results are taken in the order in which the
    probes complete; the first non-empty model ends the scan and the
    probes not yet consumed are cancelled or their results dropped.  An
    exception kept in a future is raised again by [future.result()]. *)
Fixpoint first_model (completed : list string) : M fs (option string) :=
  match completed with
  | [] => ret None
  | pf :: rest =>
      model <- extract_camera_model pf ;;
      match model with
      | Some s => if PyStr.nonempty s then ret (Some s) else first_model rest
      | None => first_model rest
      end
  end.

(** Lines 141-163.  [as_completed] gives the order of completion of the
    probes submitted for [photo_files]. *)
Definition find_first_camera_model_in_parallel
    (as_completed : list string -> list string) (photo_files : list string)
  : M fs (option string) :=
  match photo_files with
  | [] => ret None
  | _ :: _ => first_model (as_completed photo_files)
  end.

End Script.

(** *** [main], block by block *)

(** Lines 170-171. *)
Definition photo_extensions : list string :=
  [".jpg"; ".jpeg"; ".cr2"; ".nef"; ".arw"; ".dng"; ".cr3"; ".raf"; ".gpr"].
Definition video_extensions : list string :=
  [".mp4"; ".mov"; ".avi"; ".mkv"].

(** The three variables set by lines 174-181. *)
Record date_filter := mkfilter
  { use_date_filter : bool;
    start_date : option PyTime.date;
    end_date : option PyTime.date }.

Definition no_filter : date_filter := mkfilter false None None.

(** What the transfer loop leaves behind (lines 251-252). *)
Record summary := mksummary
  { success_count : Z;
    skipped_files : list string }.

(** [file_name.startswith('.') or file_name.startswith('_')] *)
Definition hidden (file_name : string) : bool :=
  PyStr.startswith "." file_name || PyStr.startswith "_" file_name.

(** [os.path.splitext(f[1])[1].lower() in exts] *)
Definition has_ext (exts : list string) (t : task) : bool :=
  PyStr.set_in (PyStr.lower (PyStr.splitext_ext (t_file_name t))) exts.

(** [start_date <= file_date <= end_date]; comparing a date with [None]
    is a [TypeError]. *)
Definition in_window (df : date_filter) (file_date : PyTime.date) : result bool :=
  match start_date df, end_date df with
  | Some s, Some e => Ok (PyTime.date_leb s file_date && PyTime.date_leb file_date e)
  | _, _ => Raise TypeError
  end.

(** The prompt of line 173. *)
Definition date_prompt : string :=
  "Enter a date (DD/MM/YYYY) for one day or a range (DD/MM/YYYY - DD/MM/YYYY), or leave empty for all files: ".

Section Main.
Context {fs : Type} (os : OS fs).

(** Lines 173-181. *)
Definition prompt_date_filter : M fs date_filter :=
  raw <- input date_prompt ;;
  let date_input := PyStr.strip raw in
  if PyStr.nonempty date_input
  then
    se <- parse_date_input date_input ;;
    match se with
    | (Some s, Some e) => ret (mkfilter true (Some s) (Some e))
    | (s, e) =>
        print (Line "Continuing without date filtering due to input error.") ;;
        ret (mkfilter false s e)
    end
  else ret no_filter.

(** Lines 187-192, for the files of one directory.  [file_name] is the
    loop variable, which outlives the loop. *)
Fixpoint gather_in (root : string) (files : list string)
    (acc : list string) (file_name : option string)
  : list string * option string :=
  match files with
  | [] => (acc, file_name)
  | f :: rest =>
      if hidden f then gather_in root rest acc (Some f)
      else if PyStr.set_in (PyStr.lower (PyStr.splitext_ext f)) photo_extensions
      then gather_in root rest (acc ++ [PyStr.join root [f]])%list (Some f)
      else gather_in root rest acc (Some f)
  end.

Fixpoint gather_tree (tree : list (string * list string))
    (acc : list string) (file_name : option string)
  : list string * option string :=
  match tree with
  | [] => (acc, file_name)
  | (root, files) :: rest =>
      let '(acc', fn') := gather_in root files acc file_name in
      gather_tree rest acc' fn'
  end.

(** Lines 183-192. *)
Definition gather_photo_files (source_folder : string)
  : M fs (list string * option string) :=
  print (Line "Gathering photo files for camera-model detection...") ;;
  tree <- walk os source_folder ;;
  ret (gather_tree tree [] None).

(** Lines 194-201. *)
Definition resolve_camera_model
    (as_completed : list string -> list string) (photo_file_paths : list string)
  : M fs string :=
  print (Line "Scanning for the first camera model in photo files...") ;;
  camera_model <- find_first_camera_model_in_parallel os as_completed photo_file_paths ;;
  match camera_model with
  | None =>
      raw <- input "No camera model found. Enter the camera model to tag video files: " ;;
      ret (PyStr.strip raw)
  | Some m =>
      print (Line ("Found camera model: " ++ m)) ;;
      ret m
  end.

(** Lines 219-231, for one file name. *)
Definition consider (df : date_filter) (root f photography_main videography_main : string)
    (files_to_process : list task)
  : M fs (list task) :=
  if hidden f then ret files_to_process
  else
    let ext := PyStr.lower (PyStr.splitext_ext f) in
    let file_path := PyStr.join root [f] in
    keep <- (if use_date_filter df
             then
               dt <- get_file_date os file_path ext photo_extensions ;;
               lift (in_window df (PyTime.date_of dt))
             else ret true) ;;
    if (keep : bool)
    then ret (files_to_process
                ++ [mktask root f photography_main videography_main
                           photo_extensions video_extensions])%list
    else ret files_to_process.

Fixpoint build_in (df : date_filter) (root : string) (files : list string)
    (photography_main videography_main : string)
    (acc : list task) (file_name : option string)
  : M fs (list task * option string) :=
  match files with
  | [] => ret (acc, file_name)
  | f :: rest =>
      acc' <- consider df root f photography_main videography_main acc ;;
      build_in df root rest photography_main videography_main acc' (Some f)
  end.

Fixpoint build_tree (df : date_filter) (tree : list (string * list string))
    (photography_main videography_main : string)
    (acc : list task) (file_name : option string)
  : M fs (list task * option string) :=
  match tree with
  | [] => ret (acc, file_name)
  | (root, files) :: rest =>
      r <- build_in df root files photography_main videography_main acc file_name ;;
      build_tree df rest photography_main videography_main (fst r) (snd r)
  end.

(** Lines 214-231. *)
Definition build_file_list (df : date_filter) (source_folder : string)
    (photography_main videography_main : string) (file_name : option string)
  : M fs (list task * option string) :=
  print (Line "Building file list for transfer...") ;;
  tree <- walk os source_folder ;;
  build_tree df tree photography_main videography_main [] file_name.

(** Lines 233-245. *)
Definition create_main_folders (event_folder photography_main videography_main : string)
    (files_to_process : list task)
  : M fs unit :=
  let photo_files := filter (has_ext photo_extensions) files_to_process in
  let video_files := filter (has_ext video_extensions) files_to_process in
  (match photo_files with
   | _ :: _ => create_directory os photography_main
   | [] => ret tt
   end) ;;
  match video_files with
  | _ :: _ =>
      let videography_folder := PyStr.join event_folder ["Videography"] in
      create_directory os videography_folder ;;
      create_directory os videography_main ;;
      create_directory os (PyStr.join videography_folder ["EXPORT"]) ;;
      create_directory os (PyStr.join videography_folder ["Project Files"]) ;;
      create_directory os (PyStr.join videography_folder ["VFX + SFX Folder"])
  | [] => ret tt
  end.

(** Lines 206-245: the destination layout. *)
Definition prepare_destination (df : date_filter)
    (source_folder event_folder folder_suffix : string) (file_name : option string)
  : M fs (list task * option string) :=
  let graphics_folder := PyStr.join event_folder ["Graphics"] in
  create_directory os graphics_folder ;;
  let photography_main := PyStr.join event_folder ["Photography"; folder_suffix] in
  let videography_main := PyStr.join event_folder ["Videography"; folder_suffix] in
  r <- build_file_list df source_folder photography_main videography_main file_name ;;
  create_main_folders event_folder photography_main videography_main (fst r) ;;
  print (Line ("Found " ++ str_of_Z (Z.of_nat (List.length (fst r))) ++ " files to process.")) ;;
  ret r.

(** Lines 260-269, one turn of the loop for the future of task [t].  The
    worker's call of [process_file] is run here, when its result is
    collected: the workers are taken one at a time, in the order in which
    they complete.  [file_name] is the variable of [main] of that name:
    the [except] branch reads whatever it last held. *)
Definition collect_one (t : task) (acc : summary * option string)
  : M fs (summary * option string) :=
  let '(s, file_name) := acc in
  try_except
    (r <- process_file os t ;;
     let '(success, fn) := r in
     if (success : bool)
     then ret (mksummary (success_count s + 1) (skipped_files s), Some fn)
     else ret (mksummary (success_count s) (skipped_files s ++ [fn])%list, Some fn))
    (fun _ =>
       match file_name with
       | Some fn => ret (mksummary (success_count s) (skipped_files s ++ [fn])%list, file_name)
       | None => raise UnboundLocalError
       end).

Fixpoint collect (completed : list task) (acc : summary * option string)
  : M fs (summary * option string) :=
  match completed with
  | [] => ret acc
  | t :: rest =>
      acc' <- collect_one t acc ;;
      collect rest acc'
  end.

(** Lines 250-269.  [as_completed] gives the order of completion of the
    futures submitted for [files_to_process]. *)
Definition transfer (as_completed : list task -> list task)
    (files_to_process : list task) (file_name : option string)
  : M fs summary :=
  r <- collect (as_completed files_to_process) (mksummary 0 [], file_name) ;;
  ret (fst r).

Fixpoint print_all (files : list string) : M fs unit :=
  match files with
  | [] => ret tt
  | f :: rest => print (Line f) ;; print_all rest
  end.

(** Lines 271-279. *)
Definition report (s : summary) : M fs unit :=
  print (Line (nl ++ "Transfer Summary:")) ;;
  print (Line ("Successfully transferred " ++ str_of_Z (success_count s)
               ++ " files, skipped "
               ++ str_of_Z (Z.of_nat (List.length (skipped_files s))) ++ " files.")) ;;
  (match skipped_files s with
   | _ :: _ => print (Line "Skipped files:") ;; print_all (skipped_files s)
   | [] => ret tt
   end) ;;
  print (Line (nl ++ "Transfer complete. Press any key to exit...")) ;;
  input "" ;;
  ret tt.

(** Lines 165-279.  [time.sleep] and the progress bar are left out. *)
Definition main (probes_completed : list string -> list string)
    (copies_completed : list task -> list task)
  : M fs summary :=
  source_folder <- input "Enter the source folder path where your media files are located: " ;;
  let source_folder := PyStr.strip source_folder in
  event_folder <- input "Enter the destination event folder path (parent folder): " ;;
  let event_folder := PyStr.strip event_folder in
  photographer_name <- input "Enter your name: " ;;
  let photographer_name := PyStr.strip photographer_name in
  df <- prompt_date_filter ;;
  g <- gather_photo_files source_folder ;;
  camera_model <- resolve_camera_model probes_completed (fst g) ;;
  let folder_suffix :=
    PyStr.replace " " "_" (camera_model ++ "_" ++ photographer_name) in
  r <- prepare_destination df source_folder event_folder folder_suffix (snd g) ;;
  s <- transfer copies_completed (fst r) (snd r) ;;
  report s ;;
  ret s.

End Main.

(* ===================================================================== *)
(** ** An executable file system *)
(* ===================================================================== *)

(** A small operating system on which the script can be run: directories
    and files are kept by path, ExifTool's answers and the source tree are
    tables, and two lists inject the failures the script has to cope with
    (a directory that cannot be created, a copy that loses its last
    byte). *)
Module Sim.

Record state := mkstate
  { dirs : list string;
    files : list (string * Z);           (* path, size in bytes *)
    mtimes : list (string * Z);          (* path, seconds since the epoch *)
    exiftool_installed : bool;
    exif : list (string * completed_process);
    source : string;
    tree : list (string * list string);  (* what [os.walk(source)] yields *)
    read_only : list string;             (* [os.makedirs] is refused here *)
    lossy : list string }.               (* copies to here lose a byte *)

Fixpoint assoc {A : Type} (key : string) (l : list (string * A)) : option A :=
  match l with
  | [] => None
  | (k, v) :: l' => if String.eqb k key then Some v else assoc key l'
  end.

Definition is_dir (p : string) (s : state) : bool := PyStr.set_in p (dirs s).

Definition is_file (p : string) (s : state) : bool :=
  match assoc p (files s) with Some _ => true | None => false end.

Definition exists_ (p : string) (s : state) : bool := is_dir p s || is_file p s.

(** [os.path.dirname] *)
Definition dirname (p : string) : string :=
  PyStr.take (Z.to_nat (PyStr.rfind "/" p)) p.

Definition set_dirs (d : list string) (s : state) : state :=
  mkstate d (files s) (mtimes s) (exiftool_installed s) (exif s)
          (source s) (tree s) (read_only s) (lossy s).

Definition set_files (f : list (string * Z)) (s : state) : state :=
  mkstate (dirs s) f (mtimes s) (exiftool_installed s) (exif s)
          (source s) (tree s) (read_only s) (lossy s).

(** The proper ancestors of a path, outermost first. *)
Fixpoint ancestors_from (s before : string) : list string :=
  match s with
  | EmptyString => []
  | String c s' =>
      ((if Ascii.eqb c "/" && PyStr.nonempty before then [before] else [])
       ++ ancestors_from s' (before ++ String c EmptyString))%list
  end.

Definition ancestors (p : string) : list string := ancestors_from p EmptyString.

(** [os.makedirs(p)]: refused on a read-only path, [FileExistsError] when
    [p] is there already, [NotADirectoryError] when a file is in the way;
    otherwise [p] and its missing ancestors become directories. *)
Definition makedirs (p : string) (s : state) : result unit * state :=
  if PyStr.set_in p (read_only s) then (Raise (OSError "PermissionError"), s)
  else if exists_ p s then (Raise (OSError "FileExistsError"), s)
  else if existsb (fun a => is_file a s) (ancestors p)
  then (Raise (OSError "NotADirectoryError"), s)
  else (Ok tt,
        set_dirs (dirs s ++ filter (fun a => negb (is_dir a s)) (ancestors p) ++ [p]) s).

Definition copy2 (src dst : string) (s : state) : result unit * state :=
  match assoc src (files s) with
  | None => (Raise (OSError "FileNotFoundError"), s)
  | Some n =>
      if negb (is_dir (dirname dst) s) then (Raise (OSError "FileNotFoundError"), s)
      else if is_dir dst s then (Raise (OSError "IsADirectoryError"), s)
      else
        let written := if PyStr.set_in dst (lossy s) then Z.max 0 (n - 1) else n in
        (Ok tt, set_files ((dst, written) :: files s) s)
  end.

Definition getsize (p : string) (s : state) : result Z :=
  match assoc p (files s) with
  | Some n => Ok n
  | None => Raise (OSError "FileNotFoundError")
  end.

Definition getmtime (p : string) (s : state) : result Z :=
  match assoc p (mtimes s) with
  | Some t => Ok t
  | None => Raise (OSError "FileNotFoundError")
  end.

(** Seconds since the epoch to a UTC date and time. *)
Definition utc (t : Z) : PyTime.datetime :=
  let days := t / 86400 in
  let secs := t mod 86400 in
  let z := days + 719468 in
  let era := z / 146097 in
  let doe := z - era * 146097 in
  let yoe := (doe - doe / 1460 + doe / 36524 - doe / 146096) / 365 in
  let doy := doe - (365 * yoe + yoe / 4 - yoe / 100) in
  let mp := (5 * doy + 2) / 153 in
  let d := doy - (153 * mp + 2) / 5 + 1 in
  let m := if mp <? 10 then mp + 3 else mp - 9 in
  let y := yoe + era * 400 + (if m <=? 2 then 1 else 0) in
  PyTime.mkdatetime (PyTime.mkdate y m d) (secs / 3600) ((secs mod 3600) / 60) (secs mod 60).

Definition walk (top : string) (s : state) : list (string * list string) :=
  if String.eqb top (source s) then tree s else [].

(** ExifTool exits with status 1 on a file it cannot read. *)
Definition exiftool (p : string) (s : state) : result completed_process :=
  if exiftool_installed s
  then match assoc p (exif s) with
       | Some out => Ok out
       | None => Ok (mkproc 1 None)
       end
  else Raise (OSError "FileNotFoundError").

Definition os : OS state :=
  mkOS state exists_ makedirs copy2 getsize getmtime utc walk exiftool.

Definition boot (s : state) (stdin : list string) : world state :=
  mkworld s stdin [] [].

Definition in_order {A : Type} (l : list A) : list A := l.

End Sim.

(* ===================================================================== *)
(** ** Well-formed dates and sample runs *)
(* ===================================================================== *)

(** The text [DD/MM/YYYY] of a date, as [d.strftime("%d/%m/%Y")] writes
    it. *)
Definition digit_char (n : Z) : ascii := ascii_of_nat (48 + Z.to_nat n).

Definition two_digits (n : Z) : string :=
  String (digit_char (n / 10)) (String (digit_char (n mod 10)) "").

Definition four_digits (n : Z) : string :=
  String (digit_char (n / 1000))
    (String (digit_char (n / 100 mod 10))
       (String (digit_char (n / 10 mod 10))
          (String (digit_char (n mod 10)) ""))).

Definition show_date (d : PyTime.date) : string :=
  two_digits (PyTime.day d) ++ "/" ++ two_digits (PyTime.month d) ++ "/"
  ++ four_digits (PyTime.year d).

(** The paths of the [os.path.exists] calls in a trace.  [create_directory]
    is the only function that asks, once per call and about its argument,
    so these are the directories the script ensures, in order. *)
Definition exists_queries (tr : list syscall) : list string :=
  flat_map (fun c => match c with SysExists p => [p] | _ => [] end) tr.

(** The exceptions and values held by the futures of the transfer stage,
    in the order of completion. *)
Fixpoint outcomes {fs : Type} (os : OS fs) (completed : list task) (w : world fs)
  : list (result (bool * string)) :=
  match completed with
  | [] => []
  | t :: rest =>
      let '(r, w') := process_file os t w in
      r :: outcomes os rest w'
  end.

Definition succeeded (r : result (bool * string)) : bool :=
  match r with
  | Ok (true, _) => true
  | _ => false
  end.

Module Demo.
Import PyJson.

(** ExifTool's JSON for one file. *)
Definition exif_json (path : string) (tags : list (string * json)) : completed_process :=
  mkproc 0 (Some (JList [JDict (("SourceFile", JStr path) :: tags)])).

Definition d (y m day : Z) : PyTime.date := PyTime.mkdate y m day.

(** 2024-06-01 10:00:00 UTC and 2024-07-15 08:30:00 UTC. *)
Definition t_june : Z := 1717236000.
Definition t_july : Z := 1721032200.

(** A card with two photos, a video and a text file. *)
Definition card : Sim.state :=
  Sim.mkstate
    ["/card"; "/ev"]
    [("/card/a.jpg", 100); ("/card/b.mp4", 2000); ("/card/c.jpg", 300);
     ("/card/notes.txt", 7)]
    [("/card/a.jpg", t_june); ("/card/b.mp4", t_july); ("/card/c.jpg", t_july);
     ("/card/notes.txt", t_july)]
    true
    [("/card/a.jpg", exif_json "/card/a.jpg"
        [("Model", JStr " EOS R5 "); ("DateTimeOriginal", JStr "2024:06:01 10:00:00")]);
     ("/card/b.mp4", exif_json "/card/b.mp4"
        [("DateTimeOriginal", JStr "2024:06:01 10:00:00")]);
     ("/card/c.jpg", exif_json "/card/c.jpg"
        [("Model", JStr "EOS R5"); ("DateTimeOriginal", JStr "01.06.2024 10h00")])]
    "/card"
    [("/card", ["a.jpg"; "b.mp4"; "c.jpg"; "notes.txt"])]
    [] [].

(** The same card, with an event folder in which the photo folder of
    this camera and photographer exists but takes no new entries. *)
Definition locked : Sim.state :=
  Sim.mkstate
    ["/card"; "/ev"; "/ev/Photography"; "/ev/Photography/EOS_R5_Jane"]
    [("/card/a.jpg", 100); ("/card/b.mp4", 2000)]
    [("/card/a.jpg", t_june); ("/card/b.mp4", t_july)]
    true
    [("/card/a.jpg", exif_json "/card/a.jpg" [("Model", JStr "EOS R5")])]
    "/card"
    [("/card", ["a.jpg"; "b.mp4"])]
    ["/ev/Photography/EOS_R5_Jane/JPG"] [].

(** Three photos; the copy of the second one loses its last byte. *)
Definition truncating : Sim.state :=
  Sim.mkstate
    ["/card"; "/ev"; "/ev/Photography"; "/ev/Photography/EOS_R5_Jane";
     "/ev/Photography/EOS_R5_Jane/JPG"]
    [("/card/a.jpg", 100); ("/card/b.jpg", 200); ("/card/c.jpg", 300)]
    [] true
    [("/card/a.jpg", exif_json "/card/a.jpg" [("Model", JStr "EOS R5")])]
    "/card"
    [("/card", ["a.jpg"; "b.jpg"; "c.jpg"])]
    [] ["/ev/Photography/EOS_R5_Jane/JPG/b.jpg"].

(** A photo whose [Model] tag reads [6300]: ExifTool's JSON prints
    values that look like numbers without quotes. *)
Definition numeric_model : Sim.state :=
  Sim.mkstate
    ["/card"; "/ev"]
    [("/card/a.jpg", 100)]
    [("/card/a.jpg", t_june)]
    true
    [("/card/a.jpg", exif_json "/card/a.jpg" [("Model", JInt 6300)])]
    "/card"
    [("/card", ["a.jpg"])]
    [] [].

Definition task_for (file_name : string) : task :=
  mktask "/card" file_name "/ev/Photography/EOS_R5_Jane" "/ev/Videography/EOS_R5_Jane"
         photo_extensions video_extensions.

Definition answers (date_input : string) : list string :=
  ["/card"; "/ev"; "Jane"; date_input; ""].

End Demo.

(* ===================================================================== *)
(** ** Vocabulary of the statements *)
(* ===================================================================== *)

(** Character classes of a text, for the lemmas on date texts. *)
Fixpoint all_chars (p : ascii -> bool) (s : string) : bool :=
  match s with
  | EmptyString => true
  | String c s' => p c && all_chars p s'
  end.

(** The characters of a [DD/MM/YYYY] text: digits and the slash. *)
Definition date_char (c : ascii) : bool :=
  PyTime.in_class PyTime.digit c || Ascii.eqb c "/".

(** The integers [lo, lo + 1, ..., lo + len - 1]. *)
Definition z_range (lo : Z) (len : nat) : list Z :=
  map (fun i => lo + Z.of_nat i) (seq 0 len).

(** Characters other than [c0]. *)
Definition other_than (c0 : ascii) (c : ascii) : bool := negb (Ascii.eqb c0 c).

Definition not_space (c : ascii) : bool := negb (PyStr.is_space c).

(** A probe that completes without a usable identity: it returns [None]
    or the empty string. *)
Definition yields_nothing {fs : Type} (os : OS fs) (pf : string) (w : world fs) : Prop :=
  fst (extract_camera_model os pf w) = Ok None
  \/ fst (extract_camera_model os pf w) = Ok (Some EmptyString).


(** The directory operations in a trace. *)
Definition dir_ops (tr : list syscall) : list syscall :=
  filter (fun c => match c with
                   | SysExists _ | SysMakedirs _ => true
                   | _ => false
                   end) tr.





(** A text that does not begin with a blank. *)
Definition starts_plain (s : string) : bool :=
  match s with
  | EmptyString => true
  | String c _ => negb (PyStr.is_space c)
  end.

(* ===================================================================== *)
(** ** Vocabulary for the rest of the script *)
(* ===================================================================== *)

(** Line 204. *)
Definition folder_suffix (camera_model photographer_name : string) : string :=
  PyStr.replace " " "_" (camera_model ++ "_" ++ photographer_name).

(** A task with another file name. *)
Definition rename (f : string) (t : task) : task :=
  mktask (t_root t) f (t_photography_main t) (t_videography_main t)
         (t_photo_exts t) (t_video_exts t).

(** A change of characters that keeps the dot and the slash apart from the
    other characters. *)
Definition keeps_marks (f : ascii -> ascii) : Prop :=
  forall a c, In c ["."%char; "/"%char] -> Ascii.eqb (f a) c = Ascii.eqb a c.

(** [os.path.splitext(f)[1].lower() in photo_extensions] on a file name. *)
Definition is_photo (f : string) : bool :=
  PyStr.set_in (PyStr.lower (PyStr.splitext_ext f)) photo_extensions.

(** The last file name that a walk lists, hidden or not; [fn] when it
    lists none. *)
Definition last_name (tree : list (string * list string)) (fn : option string)
  : option string :=
  fold_left (fun acc rf => fold_left (fun _ f => Some f) (snd rf) acc) tree fn.

(** The paths of the files of a walk that are not hidden and have a photo
    extension, in the order of the walk. *)
Definition photo_paths (tree : list (string * list string)) : list string :=
  flat_map (fun rf =>
              map (fun f => PyStr.join (fst rf) [f])
                  (filter (fun f => negb (hidden f) && is_photo f) (snd rf)))
           tree.

(** The date that lines 224-225 resolve for a file, on a file system [s]. *)
Definition resolved_date {fs : Type} (os : OS fs) (s : fs) (root f : string)
  : result PyTime.date :=
  match fst (get_file_date os (PyStr.join root [f])
               (PyStr.lower (PyStr.splitext_ext f)) photo_extensions
               (mkworld s [] [] [])) with
  | Ok dt => Ok (PyTime.date_of dt)
  | Raise e => Raise e
  end.

(** Lines 219-227 as a verdict on one file: hidden files are passed over,
    and with a filter the resolved date has to lie in the window. *)
Definition passes {fs : Type} (os : OS fs) (df : date_filter) (s : fs) (root f : string)
  : result bool :=
  if hidden f then Ok false
  else if use_date_filter df
       then res_bind (resolved_date os s root f) (in_window df)
       else Ok true.

Definition surely (r : result bool) : bool :=
  match r with
  | Ok true => true
  | _ => false
  end.

(** The tasks for the files of a walk that pass, in the order of the
    walk. *)
Definition passing_tasks {fs : Type} (os : OS fs) (df : date_filter) (s : fs)
    (photography_main videography_main : string) (tree : list (string * list string))
  : list task :=
  flat_map (fun rf =>
              map (fun f => mktask (fst rf) f photography_main videography_main
                                   photo_extensions video_extensions)
                  (filter (fun f => surely (passes os df s (fst rf) f)) (snd rf)))
           tree.

(** The names returned with [False] by the futures, in order. *)
Definition failed_names (outs : list (result (bool * string))) : list string :=
  flat_map (fun r => match r with
                     | Ok (false, name) => [name]
                     | _ => []
                     end) outs.

(** A future that holds a value, not an exception. *)
Definition returned {A : Type} (r : result A) : bool :=
  match r with
  | Ok _ => true
  | Raise _ => false
  end.

(** What lines 206-248 hand over on the card [Demo.locked], and the world
    they leave. *)
Definition prepared_run : result (list task * option string) * world Sim.state :=
  prepare_destination Sim.os no_filter "/card" "/ev" "EOS_R5_Jane" None
    (Sim.boot Demo.locked []).

(* ===================================================================== *)
(** ** Properties *)
(* ===================================================================== *)

(** *** Reasoning in the monad *)

Section Laws.
Context {fs : Type}.

Lemma bind_ok {A B : Type} (c : M fs A) (k : A -> M fs B) w a w1 :
  c w = (Ok a, w1) -> bind c k w = k a w1.
Proof. intros E. unfold bind. now rewrite E. Qed.

Lemma bind_raise {A B : Type} (c : M fs A) (k : A -> M fs B) w e w1 :
  c w = (Raise e, w1) -> bind c k w = (Raise e, w1).
Proof. intros E. unfold bind. now rewrite E. Qed.

Lemma try_ok {A : Type} (c : M fs A) (h : exn -> M fs A) w a w1 :
  c w = (Ok a, w1) -> try_except c h w = (Ok a, w1).
Proof. intros E. unfold try_except. now rewrite E. Qed.

Lemma try_raise {A : Type} (c : M fs A) (h : exn -> M fs A) w e w1 :
  c w = (Raise e, w1) -> try_except c h w = h e w1.
Proof. intros E. unfold try_except. now rewrite E. Qed.

End Laws.

(** *** The library models on sample values *)

Example strip_ex : PyStr.strip "  EOS R5 " = "EOS R5".
Proof. reflexivity. Qed.

Example split_ex : PyStr.split " - " "01/06/2024 - 05/06/2024" = ["01/06/2024"; "05/06/2024"].
Proof. reflexivity. Qed.

Example split_ex2 : PyStr.split "-" "a-b-" = ["a"; "b"; ""].
Proof. reflexivity. Qed.

Example splitext_ex :
  map PyStr.splitext_ext ["IMG_1.JPG"; ".hidden"; "a.tar.gz"; "noext"; "..x"; "a."]
  = [".JPG"; ""; ".gz"; ""; ""; "."].
Proof. reflexivity. Qed.

Example join_ex :
  PyStr.join "/ev" ["Photography"; "EOS_R5_Jane_Doe"] = "/ev/Photography/EOS_R5_Jane_Doe".
Proof. reflexivity. Qed.

Example strptime_ex1 :
  PyTime.strptime "01/06/2024" PyTime.fmt_dmy
  = Some (PyTime.mkdatetime (PyTime.mkdate 2024 6 1) 0 0 0).
Proof. reflexivity. Qed.

Example strptime_ex2 :
  map (fun s => PyTime.strptime s PyTime.fmt_dmy)
      ["1/6/2024"; "31/02/2024"; "29/02/2024"; "29/02/2023"; "00/01/2024"; "01/13/2024";
       "01/06/24"; "01/06/2024 "; "01/06/0000"; " 1/06/2024"; "32/01/2024"]
  = [Some (PyTime.mkdatetime (PyTime.mkdate 2024 6 1) 0 0 0); None;
     Some (PyTime.mkdatetime (PyTime.mkdate 2024 2 29) 0 0 0); None; None; None;
     None; None; None; Some (PyTime.mkdatetime (PyTime.mkdate 2024 6 1) 0 0 0); None].
Proof. reflexivity. Qed.

Example strptime_ex3 :
  map (fun s => PyTime.strptime s PyTime.fmt_exif_colon)
      ["2024:06:01 10:20:30"; "2024:06:01  7:5:9"; "2024:06:01 10:20:60";
       "2024:06:01 10:20:30+02:00"; "2024-06-01 10:20:30"]
  = [Some (PyTime.mkdatetime (PyTime.mkdate 2024 6 1) 10 20 30);
     Some (PyTime.mkdatetime (PyTime.mkdate 2024 6 1) 7 5 9); None; None; None].
Proof. reflexivity. Qed.

(** The literal dashes of the source are the UTF-8 strings above. *)
Lemma dashes_utf8 : "–" = en_dash /\ "—" = em_dash.
Proof. split; reflexivity. Qed.

(** *** The date filter *)

Lemma date_leb_spec (a b : PyTime.date) :
  PyTime.date_leb a b = true <->
  PyTime.year a < PyTime.year b
  \/ (PyTime.year a = PyTime.year b
      /\ (PyTime.month a < PyTime.month b
          \/ (PyTime.month a = PyTime.month b /\ PyTime.day a <= PyTime.day b))).
Proof.
  unfold PyTime.date_leb.
  rewrite !orb_true_iff, !andb_true_iff, !orb_true_iff, !andb_true_iff.
  rewrite !Z.ltb_lt, !Z.eqb_eq, Z.leb_le. tauto.
Qed.

Lemma date_leb_trans (a b c : PyTime.date) :
  PyTime.date_leb a b = true -> PyTime.date_leb b c = true -> PyTime.date_leb a c = true.
Proof. rewrite !date_leb_spec. lia. Qed.

Lemma parse_date_input_value {fs : Type} (date_input : string) (w : world fs) :
  parse_date_input date_input w
  = match parse_date_range date_input with
    | Ok (s, e) => (Ok (Some s, Some e), w)
    | Raise x =>
        (Ok (None, None), say (LineExn "Error parsing date input: " x) w)
    end.
Proof.
  unfold parse_date_input, try_except, bind, lift, ret, print.
  destruct (parse_date_range date_input) as [[s e]|x]; reflexivity.
Qed.


(** *** Texts of well-formed dates *)

Lemma z_range_all (P : Z -> Prop) (lo : Z) (len : nat) :
  Forall P (z_range lo len) ->
  forall n, lo <= n < lo + Z.of_nat len -> P n.
Proof.
  intros H n Hn. rewrite Forall_forall in H. apply H.
  unfold z_range. apply in_map_iff. exists (Z.to_nat (n - lo)). split.
  - lia.
  - apply in_seq. lia.
Qed.

Ltac zdiv := Z.to_euclidean_division_equations; lia.

Ltac by_cases_on n lo len :=
  pattern n; apply (z_range_all _ lo len);
  [cbv [z_range seq map]; repeat (apply Forall_cons); [.. | apply Forall_nil] | lia].

Lemma digit_char_digit (n : Z) :
  0 <= n <= 9 ->
  PyTime.in_class PyTime.digit (digit_char n) = true
  /\ Z.of_nat (nat_of_ascii (digit_char n)) - 48 = n.
Proof.
  intros H. by_cases_on n 0 10%nat; split; reflexivity.
Qed.

Lemma digit_char_date_char (n : Z) : 0 <= n <= 9 -> date_char (digit_char n) = true.
Proof.
  intros H. unfold date_char. now rewrite (proj1 (digit_char_digit n H)).
Qed.

Lemma valid_date_bounds (d : PyTime.date) :
  PyTime.valid_date d = true ->
  1 <= PyTime.year d <= 9999 /\ 1 <= PyTime.month d <= 12 /\ 1 <= PyTime.day d <= 31.
Proof.
  unfold PyTime.valid_date. rewrite !andb_true_iff, !Z.leb_le.
  intros (((((Hy1 & Hy2) & Hm1) & Hm2) & Hd1) & Hd2).
  assert (PyTime.days_in_month (PyTime.year d) (PyTime.month d) <= 31).
  { unfold PyTime.days_in_month.
    repeat match goal with |- context [if ?b then _ else _] => destruct b end; lia. }
  lia.
Qed.

Lemma show_date_chars (d : PyTime.date) :
  PyTime.valid_date d = true -> all_chars date_char (show_date d) = true.
Proof.
  intros H. apply valid_date_bounds in H as (Hy & Hm & Hd).
  unfold show_date, two_digits, four_digits. cbn [append all_chars].
  repeat (rewrite digit_char_date_char by zdiv).
  reflexivity.
Qed.

(** **** [strptime] reads back what [show_date] writes *)

Lemma match_year (y : Z) (rest : string) :
  0 <= y <= 9999 ->
  PyTime.match_classes
    [PyTime.digit; PyTime.digit; PyTime.digit; PyTime.digit] (four_digits y ++ rest) 0
  = Some (y, rest).
Proof.
  intros H. unfold four_digits. cbn [append PyTime.match_classes].
  destruct (digit_char_digit (y / 1000)) as [-> ->]; [zdiv|].
  destruct (digit_char_digit (y / 100 mod 10)) as [-> ->]; [zdiv|].
  destruct (digit_char_digit (y / 10 mod 10)) as [-> ->]; [zdiv|].
  destruct (digit_char_digit (y mod 10)) as [-> ->]; [zdiv|].
  do 2 f_equal. zdiv.
Qed.

Lemma match_format_year (y : Z) (rest : string) (f : PyTime.fields) :
  0 <= y <= 9999 ->
  PyTime.match_format [PyTime.Dir PyTime.Dir_Y] (four_digits y ++ rest) f
  = Some (PyTime.set_field PyTime.Dir_Y y f, rest).
Proof.
  intros H. cbn [PyTime.match_format PyTime.alternatives PyTime.first_some].
  now rewrite match_year.
Qed.

(** One directive on literal digits: unfold the alternation, treat the
    rest of the format as a black box and compute. *)
Ltac run_directive fmt E :=
  cbn [PyTime.match_format PyTime.alternatives PyTime.first_some];
  revert E; generalize (PyTime.match_format fmt); intros K E;
  vm_compute in E |- *; rewrite E; reflexivity.

Lemma match_format_month (m : Z) :
  1 <= m <= 12 ->
  forall (fmt : list PyTime.fmt_item) (rest : string) (f : PyTime.fields) r,
    PyTime.match_format fmt rest (PyTime.set_field PyTime.Dir_m m f) = Some r ->
    PyTime.match_format (PyTime.Dir PyTime.Dir_m :: fmt) (two_digits m ++ rest) f = Some r.
Proof.
  intros H. by_cases_on m 1 12%nat; intros fmt rest f r E; run_directive fmt E.
Qed.

Lemma match_format_day (d : Z) :
  1 <= d <= 31 ->
  forall (fmt : list PyTime.fmt_item) (rest : string) (f : PyTime.fields) r,
    PyTime.match_format fmt rest (PyTime.set_field PyTime.Dir_d d f) = Some r ->
    PyTime.match_format (PyTime.Dir PyTime.Dir_d :: fmt) (two_digits d ++ rest) f = Some r.
Proof.
  intros H. by_cases_on d 1 31%nat; intros fmt rest f r E; run_directive fmt E.
Qed.

Lemma match_format_lit (c : ascii) (fmt : list PyTime.fmt_item) (s : string)
    (f : PyTime.fields) :
  PyTime.match_format (PyTime.Lit c :: fmt) (String c s) f = PyTime.match_format fmt s f.
Proof. cbn [PyTime.match_format]. now rewrite Ascii.eqb_refl. Qed.

Lemma match_format_show_date (d : PyTime.date) (rest : string) :
  PyTime.valid_date d = true ->
  PyTime.match_format PyTime.fmt_dmy (show_date d ++ rest) PyTime.default_fields
  = Some (PyTime.mkfields (PyTime.year d) (PyTime.month d) (PyTime.day d) 0 0 0, rest).
Proof.
  intros H. pose proof (valid_date_bounds d H) as (Hy & Hm & Hd).
  unfold show_date, PyTime.fmt_dmy.
  replace ((two_digits (PyTime.day d) ++ "/" ++ two_digits (PyTime.month d) ++ "/"
            ++ four_digits (PyTime.year d)) ++ rest)
    with (two_digits (PyTime.day d)
          ++ String "/" (two_digits (PyTime.month d)
                         ++ String "/" (four_digits (PyTime.year d) ++ rest)))
    by (unfold two_digits, four_digits; reflexivity).
  apply match_format_day; [lia|]. rewrite match_format_lit.
  apply match_format_month; [lia|]. rewrite match_format_lit.
  rewrite match_format_year by lia. reflexivity.
Qed.

Lemma strptime_show_date (d : PyTime.date) (rest : string) :
  PyTime.valid_date d = true ->
  PyTime.strptime (show_date d ++ rest) PyTime.fmt_dmy
  = match rest with
    | EmptyString => Some (PyTime.mkdatetime d 0 0 0)
    | String _ _ => None
    end.
Proof.
  intros H. unfold PyTime.strptime. rewrite match_format_show_date by assumption.
  destruct rest; [|reflexivity].
  cbn [PyTime.f_Y PyTime.f_m PyTime.f_d PyTime.f_H PyTime.f_M PyTime.f_S].
  unfold PyTime.valid_datetime. cbn [PyTime.dt_date PyTime.hour PyTime.minute PyTime.second].
  destruct d as [y m dd]. cbn [PyTime.year PyTime.month PyTime.day] in *.
  rewrite H. reflexivity.
Qed.

(** **** [in], [replace], [split] and [strip] on texts without the
    character looked for *)

Lemma all_chars_app (p : ascii -> bool) (a b : string) :
  all_chars p (a ++ b) = all_chars p a && all_chars p b.
Proof.
  induction a as [|c a IH]; cbn [append all_chars]; [reflexivity|].
  now rewrite IH, andb_assoc.
Qed.

Lemma all_chars_impl (p q : ascii -> bool) (s : string) :
  (forall c, p c = true -> q c = true) ->
  all_chars p s = true -> all_chars q s = true.
Proof.
  intros Hpq. induction s as [|c s IH]; cbn [all_chars]; [reflexivity|].
  rewrite !andb_true_iff. intros [Hc Hs]. split; auto.
Qed.

Lemma date_char_other_than (c0 : ascii) :
  date_char c0 = false -> forall c, date_char c = true -> other_than c0 c = true.
Proof.
  intros H0 c Hc. unfold other_than.
  destruct (Ascii.eqb_spec c0 c) as [->|]; [congruence|reflexivity].
Qed.

Lemma date_char_not_space (c : ascii) : date_char c = true -> not_space c = true.
Proof.
  destruct c as [[] [] [] [] [] [] [] []]; vm_compute; congruence.
Qed.

Lemma startswith_app (sep b : string) : PyStr.startswith sep (sep ++ b) = true.
Proof.
  induction sep as [|c sep IH]; cbn [append PyStr.startswith]; [reflexivity|].
  now rewrite Ascii.eqb_refl, IH.
Qed.

Lemma contains_app_r (sub a b : string) :
  PyStr.contains sub b = true -> PyStr.contains sub (a ++ b) = true.
Proof.
  intros H. induction a as [|c a IH]; cbn [append]; [exact H|].
  cbn [PyStr.contains]. rewrite IH. apply orb_true_r.
Qed.

Lemma contains_sep (sep a b : string) : PyStr.contains sep (a ++ sep ++ b) = true.
Proof.
  apply contains_app_r. destruct sep as [|c sep].
  - destruct b; reflexivity.
  - change (String c sep ++ b) with (String c (sep ++ b)).
    cbn [PyStr.contains]. change (String c (sep ++ b)) with (String c sep ++ b).
    now rewrite startswith_app.
Qed.

Section Absent.
Variables (c0 : ascii) (sep' : string).
Let sep := String c0 sep'.

Lemma startswith_other (c : ascii) (s : string) :
  other_than c0 c = true -> PyStr.startswith sep (String c s) = false.
Proof.
  unfold other_than. intros H. cbn [sep PyStr.startswith].
  destruct (Ascii.eqb c0 c); [discriminate|reflexivity].
Qed.

Lemma contains_absent (s : string) :
  all_chars (other_than c0) s = true -> PyStr.contains sep s = false.
Proof.
  induction s as [|c s IH]; [reflexivity|].
  cbn [all_chars]. rewrite andb_true_iff. intros [Hc Hs].
  cbn [PyStr.contains]. rewrite startswith_other by assumption. now rewrite IH.
Qed.

Lemma replace_absent (new s : string) :
  all_chars (other_than c0) s = true -> PyStr.replace sep new s = s.
Proof.
  unfold PyStr.replace. induction s as [|c s IH]; [reflexivity|].
  cbn [all_chars]. rewrite andb_true_iff. intros [Hc Hs].
  cbn [PyStr.replace_from]. rewrite startswith_other by assumption. now rewrite IH.
Qed.

Lemma split_absent (s : string) :
  all_chars (other_than c0) s = true -> PyStr.split sep s = [s].
Proof.
  unfold PyStr.split. induction s as [|c s IH]; [reflexivity|].
  cbn [all_chars]. rewrite andb_true_iff. intros [Hc Hs].
  cbn [PyStr.split_from]. rewrite startswith_other by assumption. now rewrite IH.
Qed.

Lemma split_skip (x b : string) :
  PyStr.split_from sep (x ++ b) (String.length x) = PyStr.split_from sep b 0.
Proof.
  induction x as [|c x IH]; [reflexivity|].
  cbn [append String.length PyStr.split_from]. exact IH.
Qed.

Lemma split_at_first (a b : string) :
  all_chars (other_than c0) a = true ->
  PyStr.split sep (a ++ sep ++ b) = a :: PyStr.split sep b.
Proof.
  unfold PyStr.split. induction a as [|c a IH].
  - intros _. change (EmptyString ++ sep ++ b) with (String c0 (sep' ++ b)).
    cbn [PyStr.split_from].
    change (String c0 (sep' ++ b)) with (sep ++ b). rewrite startswith_app.
    replace (String.length sep - 1)%nat with (String.length sep')
      by (unfold sep; cbn [String.length]; lia).
    now rewrite split_skip.
  - cbn [all_chars]. rewrite andb_true_iff. intros [Hc Ha].
    cbn [append PyStr.split_from]. rewrite startswith_other by assumption.
    now rewrite IH.
Qed.

End Absent.

Lemma lstrip_plain (c : ascii) (s : string) :
  not_space c = true -> PyStr.lstrip (String c s) = String c s.
Proof.
  unfold not_space. intros H. cbn [PyStr.lstrip].
  destruct (PyStr.is_space c); [discriminate|reflexivity].
Qed.

Lemma rstrip_plain (s : string) :
  all_chars not_space s = true -> PyStr.rstrip s = s.
Proof.
  induction s as [|c s IH]; [reflexivity|].
  cbn [all_chars]. rewrite andb_true_iff. unfold not_space at 1. intros [Hc Hs].
  cbn [PyStr.rstrip]. rewrite (IH Hs).
  destruct (PyStr.is_space c); [discriminate|reflexivity].
Qed.

Lemma rstrip_app (x b : string) :
  PyStr.nonempty b = true -> PyStr.rstrip b = b -> PyStr.rstrip (x ++ b) = x ++ b.
Proof.
  intros Hne Hb. induction x as [|c x IH]; [exact Hb|].
  cbn [append PyStr.rstrip]. rewrite IH.
  replace (PyStr.nonempty (x ++ b)) with true; [now rewrite andb_false_r|].
  destruct x; cbn [append PyStr.nonempty]; [now rewrite Hne|reflexivity].
Qed.

Lemma show_date_head (d : PyTime.date) :
  exists c s, show_date d = String c s /\ (PyTime.valid_date d = true -> not_space c = true).
Proof.
  unfold show_date, two_digits. cbn [append]. eexists _, _. split; [reflexivity|].
  intros H. apply valid_date_bounds in H as (_ & _ & Hd).
  apply date_char_not_space, digit_char_date_char. zdiv.
Qed.

Lemma strip_show_date (d : PyTime.date) :
  PyTime.valid_date d = true -> PyStr.strip (show_date d) = show_date d.
Proof.
  intros H. unfold PyStr.strip.
  destruct (show_date_head d) as (c & s & E & Hc).
  pose proof (show_date_chars d H) as Hall. rewrite E in *.
  rewrite lstrip_plain by auto.
  apply rstrip_plain. eapply all_chars_impl; [apply date_char_not_space|exact Hall].
Qed.

Lemma append_empty_r (s : string) : s ++ "" = s.
Proof. induction s as [|c s IH]; cbn [append]; [reflexivity|now rewrite IH]. Qed.

Lemma append_assoc (a b c : string) : (a ++ b) ++ c = a ++ b ++ c.
Proof. induction a as [|x a IH]; cbn [append]; [reflexivity|now rewrite IH]. Qed.

Lemma strptime_dmy_show_date (d : PyTime.date) :
  PyTime.valid_date d = true -> strptime_dmy (show_date d) = Ok d.
Proof.
  intros H. unfold strptime_dmy.
  rewrite <- (append_empty_r (show_date d)).
  now rewrite strptime_show_date.
Qed.

(** **** [parse_date_range] on well-formed dates *)

(** Solves [all_chars (other_than c) t = true] for a text [t] put together
    from date texts and literal pieces that do not contain [c]. *)
Ltac plain_text :=
  rewrite ?all_chars_app, ?andb_true_iff; repeat split;
  first [ reflexivity
        | eapply all_chars_impl;
          [apply date_char_other_than; reflexivity | apply show_date_chars; assumption] ].

Lemma dashes_absent (s : string) :
  all_chars (other_than (ascii_of_nat 226)) s = true ->
  fold_left (fun t dash => PyStr.replace dash "-" t) [en_dash; em_dash] s = s.
Proof.
  intros H. cbn [fold_left]. unfold en_dash, em_dash.
  rewrite (replace_absent (ascii_of_nat 226) _ "-" s H).
  now rewrite (replace_absent (ascii_of_nat 226) _ "-" s H).
Qed.

Lemma parse_single (d : PyTime.date) :
  PyTime.valid_date d = true -> parse_date_range (show_date d) = Ok (d, d).
Proof.
  intros H. unfold parse_date_range.
  rewrite (contains_absent "-" "") by plain_text.
  rewrite strip_show_date, strptime_dmy_show_date by assumption. reflexivity.
Qed.

Lemma parse_range_spaced (d1 d2 : PyTime.date) :
  PyTime.valid_date d1 = true -> PyTime.valid_date d2 = true ->
  parse_date_range (show_date d1 ++ " - " ++ show_date d2) = Ok (d1, d2).
Proof.
  intros H1 H2. unfold parse_date_range.
  rewrite (contains_app_r "-" (show_date d1) (" - " ++ show_date d2)) by reflexivity.
  rewrite dashes_absent by plain_text.
  rewrite contains_sep.
  rewrite (split_at_first " " "- ") by plain_text.
  rewrite (split_absent " " "- ") by plain_text.
  rewrite !strip_show_date, !strptime_dmy_show_date by assumption. reflexivity.
Qed.

Lemma parse_range_tight (d1 d2 : PyTime.date) :
  PyTime.valid_date d1 = true -> PyTime.valid_date d2 = true ->
  parse_date_range (show_date d1 ++ "-" ++ show_date d2) = Ok (d1, d2).
Proof.
  intros H1 H2. unfold parse_date_range.
  rewrite contains_sep.
  rewrite dashes_absent by plain_text.
  rewrite (contains_absent " " "- ") by plain_text.
  rewrite (split_at_first "-" "") by plain_text.
  rewrite (split_absent "-" "") by plain_text.
  rewrite !strip_show_date, !strptime_dmy_show_date by assumption. reflexivity.
Qed.

(** A text that starts with a date and goes on is not a date: with no
    ASCII hyphen in it, the whole of it goes to [strptime], which finds
    text left over. *)
Lemma parse_trailing (d1 d2 : PyTime.date) (mid : string) :
  PyTime.valid_date d1 = true -> PyTime.valid_date d2 = true ->
  all_chars (other_than "-") mid = true ->
  parse_date_range (show_date d1 ++ mid ++ show_date d2) = Raise ValueError.
Proof.
  intros H1 H2 Hmid. unfold parse_date_range.
  assert (Hall : all_chars (other_than "-") (show_date d1 ++ mid ++ show_date d2) = true).
  { rewrite !all_chars_app, Hmid, !andb_true_iff. repeat split;
      (eapply all_chars_impl;
       [apply date_char_other_than; reflexivity | apply show_date_chars; assumption]). }
  rewrite (contains_absent "-" "" _ Hall).
  unfold PyStr.strip.
  destruct (show_date_head d1) as (c & s & E & Hc). rewrite E at 1.
  cbn [append]. rewrite lstrip_plain by auto.
  change (String c (s ++ mid ++ show_date d2)) with (String c s ++ mid ++ show_date d2).
  rewrite <- E, <- append_assoc.
  rewrite rstrip_app.
  - rewrite append_assoc. unfold strptime_dmy. rewrite strptime_show_date by assumption.
    destruct (show_date_head d2) as (c2 & s2 & E2 & _). rewrite E2.
    destruct mid; reflexivity.
  - destruct (show_date_head d2) as (c2 & s2 & E2 & _). now rewrite E2.
  - apply rstrip_plain. eapply all_chars_impl; [apply date_char_not_space|].
    now apply show_date_chars.
Qed.



(** C3, as stated, fails on [05/06/2024 - 01/06/2024]: two well-formed
    dates in reverse order parse to a window whose start lies after its
    end, and line 178 takes that window as a valid filter. *)
Lemma reversed_range_is_accepted :
  parse_date_input (fs := Sim.state) "05/06/2024 - 01/06/2024" (Sim.boot Demo.card [])
  = (Ok (Some (Demo.d 2024 6 5), Some (Demo.d 2024 6 1)), Sim.boot Demo.card [])
  /\ PyTime.date_leb (Demo.d 2024 6 5) (Demo.d 2024 6 1) = false
  /\ fst (prompt_date_filter (fs := Sim.state)
            (Sim.boot Demo.card ["05/06/2024 - 01/06/2024"]))
     = Ok (mkfilter true (Some (Demo.d 2024 6 5)) (Some (Demo.d 2024 6 1))).
Proof. repeat split; reflexivity. Qed.

(** C3, amended: parsing compares nothing.  A single well-formed date
    yields start = end; two well-formed dates, with or without blanks
    around the hyphen, yield the window (first date, second date) as
    written, so that start <= end holds exactly when the first date is not
    after the second; a window read from a reversed range includes no
    date. *)
Theorem parse_keeps_the_order_written :
  forall (fs : Type) (w : world fs) (d1 d2 : PyTime.date),
    PyTime.valid_date d1 = true ->
    PyTime.valid_date d2 = true ->
    parse_date_input (show_date d1) w = (Ok (Some d1, Some d1), w)
    /\ parse_date_input (show_date d1 ++ " - " ++ show_date d2) w
       = (Ok (Some d1, Some d2), w)
    /\ parse_date_input (show_date d1 ++ "-" ++ show_date d2) w
       = (Ok (Some d1, Some d2), w)
    /\ (PyTime.date_leb d1 d2 = false ->
        forall x, in_window (mkfilter true (Some d1) (Some d2)) x = Ok false).
Proof.
  intros fs w d1 d2 H1 H2. repeat split.
  - now rewrite parse_date_input_value, parse_single.
  - now rewrite parse_date_input_value, parse_range_spaced.
  - now rewrite parse_date_input_value, parse_range_tight.
  - intros Hrev x. unfold in_window; cbn [start_date end_date]. f_equal.
    destruct (PyTime.date_leb d1 x) eqn:E1; [|reflexivity].
    destruct (PyTime.date_leb x d2) eqn:E2; [|reflexivity].
    rewrite (date_leb_trans _ _ _ E1 E2) in Hrev. discriminate.
Qed.

Lemma parse_keeps_the_order_written_witness :
  parse_date_input (fs := Sim.state) "05/06/2024 - 01/06/2024" (Sim.boot Demo.card [])
  = (Ok (Some (Demo.d 2024 6 5), Some (Demo.d 2024 6 1)), Sim.boot Demo.card []).
Proof.
  exact (proj1 (proj2 (parse_keeps_the_order_written Sim.state (Sim.boot Demo.card [])
                         (Demo.d 2024 6 5) (Demo.d 2024 6 1) eq_refl eq_refl))).
Defined.

(** C7 against the code: for every pair of well-formed dates, a range
    written with an en dash or an em dash, with or without blanks around
    it, is not read: [parse_date_input] reports an error and returns
    [(None, None)].  The dashes are only replaced inside the branch taken
    when the text already holds an ASCII hyphen (line 125), with which the
    same dates do parse. *)
Theorem typographic_dash_is_rejected :
  forall (fs : Type) (w : world fs) (d1 d2 : PyTime.date) (dash : string),
    PyTime.valid_date d1 = true ->
    PyTime.valid_date d2 = true ->
    In dash [en_dash; em_dash] ->
    fst (parse_date_input (show_date d1 ++ (" " ++ dash ++ " ") ++ show_date d2) w)
    = Ok (None, None)
    /\ fst (parse_date_input (show_date d1 ++ dash ++ show_date d2) w) = Ok (None, None)
    /\ fst (parse_date_input (show_date d1 ++ " - " ++ show_date d2) w)
       = Ok (Some d1, Some d2).
Proof.
  intros fs w d1 d2 dash H1 H2 Hdash.
  assert (Hmid : all_chars (other_than "-") dash = true
                 /\ all_chars (other_than "-") (" " ++ dash ++ " ") = true).
  { destruct Hdash as [<-|[<-|[]]]; split; reflexivity. }
  destruct Hmid as [Ha Hb]. repeat split.
  - now rewrite parse_date_input_value, parse_trailing.
  - now rewrite parse_date_input_value, parse_trailing.
  - now rewrite parse_date_input_value, parse_range_spaced.
Qed.

Lemma typographic_dash_is_rejected_witness :
  fst (parse_date_input (fs := Sim.state) "01/06/2024 – 05/06/2024" (Sim.boot Demo.card []))
  = Ok (None, None).
Proof.
  exact (proj1 (typographic_dash_is_rejected Sim.state (Sim.boot Demo.card [])
                  (Demo.d 2024 6 1) (Demo.d 2024 6 5) en_dash
                  eq_refl eq_refl (or_introl eq_refl))).
Defined.

(** *** The metadata probe *)

Lemma lstrip_starts_plain (s : string) : starts_plain (PyStr.lstrip s) = true.
Proof.
  induction s as [|c s IH]; [reflexivity|].
  cbn [PyStr.lstrip]. destruct (PyStr.is_space c) eqn:E; [exact IH|].
  cbn [starts_plain]. now rewrite E.
Qed.

Lemma rstrip_starts_plain (s : string) :
  starts_plain s = true -> starts_plain (PyStr.rstrip s) = true.
Proof.
  destruct s as [|c s]; [reflexivity|].
  cbn [starts_plain PyStr.rstrip]. intros H.
  destruct (PyStr.is_space c) eqn:E; [discriminate|]. cbn [andb starts_plain].
  now rewrite E.
Qed.

Lemma lstrip_of_plain (s : string) : starts_plain s = true -> PyStr.lstrip s = s.
Proof.
  destruct s as [|c s]; [reflexivity|].
  cbn [starts_plain PyStr.lstrip]. now destruct (PyStr.is_space c).
Qed.

Lemma rstrip_idempotent (s : string) : PyStr.rstrip (PyStr.rstrip s) = PyStr.rstrip s.
Proof.
  induction s as [|c s IH]; [reflexivity|].
  cbn [PyStr.rstrip].
  destruct (PyStr.is_space c && negb (PyStr.nonempty (PyStr.rstrip s))) eqn:E;
    [reflexivity|].
  cbn [PyStr.rstrip]. now rewrite IH, E.
Qed.

(** Trimming leaves nothing to trim. *)
Lemma strip_idempotent (s : string) : PyStr.strip (PyStr.strip s) = PyStr.strip s.
Proof.
  unfold PyStr.strip.
  rewrite (lstrip_of_plain (PyStr.rstrip (PyStr.lstrip s))).
  - apply rstrip_idempotent.
  - apply rstrip_starts_plain, lstrip_starts_plain.
Qed.

Section Probe.
Context {fs : Type} (os : OS fs).

(** What [exiftool_get_metadata] returns and leaves behind, from what the
    ExifTool process did. *)
Lemma exiftool_get_metadata_value (file_path : string) (w : world fs) :
  exiftool_get_metadata os file_path w
  = match res_bind (run_exiftool os file_path (w_fs w)) read_metadata with
    | Ok meta => (Ok meta, emit (SysExiftool file_path) w)
    | Raise e =>
        (Ok None,
         say (LineExn ("Error extracting metadata from " ++ file_path ++ ": ") e)
             (emit (SysExiftool file_path) w))
    end.
Proof.
  unfold exiftool_get_metadata, try_except, bind, subprocess_run, lift, print, ret.
  destruct (run_exiftool os file_path (w_fs w)) as [p|e]; cbn [res_bind]; [|reflexivity].
  destruct (read_metadata p); reflexivity.
Qed.

(** The probe returns, whatever ExifTool did. *)
Lemma exiftool_get_metadata_returns (file_path : string) (w : world fs) :
  exists meta w', exiftool_get_metadata os file_path w = (Ok meta, w').
Proof.
  rewrite exiftool_get_metadata_value.
  destruct (res_bind _ _); eauto.
Qed.

(** It neither writes to the file system nor reads the keyboard, and what
    it returns depends on the file system only. *)
Lemma exiftool_get_metadata_reads (file_path : string) (w : world fs) :
  w_fs (snd (exiftool_get_metadata os file_path w)) = w_fs w
  /\ w_stdin (snd (exiftool_get_metadata os file_path w)) = w_stdin w
  /\ w_trace (snd (exiftool_get_metadata os file_path w))
     = (w_trace w ++ [SysExiftool file_path])%list.
Proof.
  rewrite exiftool_get_metadata_value.
  destruct (res_bind _ _); cbn; repeat split; reflexivity.
Qed.

Lemma exiftool_get_metadata_fs (file_path : string) (w1 w2 : world fs) :
  w_fs w1 = w_fs w2 ->
  fst (exiftool_get_metadata os file_path w1) = fst (exiftool_get_metadata os file_path w2).
Proof.
  intros E. rewrite !exiftool_get_metadata_value, E.
  destruct (res_bind _ _); reflexivity.
Qed.

(** Any failure of the extraction gives [None], that is, neither field:
    ExifTool not installed, a non-zero exit status, output that is not
    JSON, or JSON of another shape than a list holding a dict. *)
Lemma extraction_failure_is_absence (file_path : string) (w : world fs) :
  (forall e, run_exiftool os file_path (w_fs w) = Raise e ->
             fst (exiftool_get_metadata os file_path w) = Ok None)
  /\ (forall p, run_exiftool os file_path (w_fs w) = Ok p -> returncode p <> 0 ->
                fst (exiftool_get_metadata os file_path w) = Ok None)
  /\ (forall p, run_exiftool os file_path (w_fs w) = Ok p -> stdout_json p = None ->
                fst (exiftool_get_metadata os file_path w) = Ok None)
  /\ (forall p e, run_exiftool os file_path (w_fs w) = Ok p -> read_metadata p = Raise e ->
                  fst (exiftool_get_metadata os file_path w) = Ok None).
Proof.
  rewrite exiftool_get_metadata_value. repeat split.
  - intros e ->. reflexivity.
  - intros p -> Hrc. cbn [res_bind]. unfold read_metadata.
    destruct (Z.eqb_spec (returncode p) 0); [contradiction|reflexivity].
  - intros p -> Hout. cbn [res_bind]. unfold read_metadata, json_loads. rewrite Hout.
    destruct (negb (returncode p =? 0)); reflexivity.
  - intros p e -> Hr. cbn [res_bind]. now rewrite Hr.
Qed.

(** A timestamp text in neither layout is no error: the dict comes back
    with the model and without a date. *)
Lemma unparsable_timestamp_is_absence (p : completed_process)
    (tags : list (string * PyJson.json)) (rest : list PyJson.json) (s : string) :
  returncode p = 0 ->
  stdout_json p = Some (PyJson.JList (PyJson.JDict tags :: rest)) ->
  PyJson.lookup "DateTimeOriginal" tags = PyJson.JStr s ->
  PyTime.strptime s PyTime.fmt_exif_colon = None ->
  PyTime.strptime s PyTime.fmt_exif_hyphen = None ->
  read_metadata p = Ok (Some (mkmeta (PyJson.lookup "Model" tags) None)).
Proof.
  intros Hrc Hout Hdt H1 H2. unfold read_metadata, json_loads.
  rewrite Hrc, Hout. cbn. rewrite Hdt. cbn. rewrite H1, H2.
  destruct (PyStr.nonempty s); reflexivity.
Qed.

Lemma extract_camera_model_value (file_path : string) (w : world fs) :
  extract_camera_model os file_path w
  = (res_bind (fst (exiftool_get_metadata os file_path w)) identity_of,
     snd (exiftool_get_metadata os file_path w)).
Proof.
  unfold extract_camera_model, bind, lift.
  destruct (exiftool_get_metadata_returns file_path w) as (meta & w' & ->).
  reflexivity.
Qed.

Lemma extract_camera_model_fs (file_path : string) (w1 w2 : world fs) :
  w_fs w1 = w_fs w2 ->
  fst (extract_camera_model os file_path w1) = fst (extract_camera_model os file_path w2).
Proof.
  intros E. rewrite !extract_camera_model_value. cbn [fst].
  now rewrite (exiftool_get_metadata_fs file_path w1 w2 E).
Qed.

Lemma extract_camera_model_keeps_fs (file_path : string) (w : world fs) :
  w_fs (snd (extract_camera_model os file_path w)) = w_fs w.
Proof.
  rewrite extract_camera_model_value. cbn [snd].
  apply exiftool_get_metadata_reads.
Qed.

(** An identity that is returned is a trimmed [Model] text. *)
Lemma extract_camera_model_trims (file_path : string) (w : world fs) (s : string) :
  fst (extract_camera_model os file_path w) = Ok (Some s) ->
  PyStr.strip s = s
  /\ exists m raw,
       fst (exiftool_get_metadata os file_path w) = Ok (Some m)
       /\ model m = PyJson.JStr raw /\ s = PyStr.strip raw.
Proof.
  rewrite extract_camera_model_value. cbn [fst].
  destruct (fst (exiftool_get_metadata os file_path w)) as [[m|]|e]; cbn; try discriminate.
  destruct (PyJson.truthy (model m)); [|discriminate].
  destruct (model m) eqn:Em; cbn; try discriminate.
  intros [= <-]. split; [apply strip_idempotent|eauto].
Qed.

End Probe.

(** C5 against the code: when the value that ExifTool printed for [Model]
    is true but is not a string (a number, [true], a list, a dict), the
    probe of lines 56-63 raises [AttributeError] to its caller: the dict
    returned by [exiftool_get_metadata] is handed to [.strip()] outside
    any [try]. *)
Theorem extract_camera_model_raises_on_non_text_model :
  forall (fs : Type) (os : OS fs) (file_path : string) (w w' : world fs) (m : metadata),
    exiftool_get_metadata os file_path w = (Ok (Some m), w') ->
    PyJson.truthy (model m) = true ->
    (forall s, model m <> PyJson.JStr s) ->
    extract_camera_model os file_path w = (Raise AttributeError, w').
Proof.
  intros fs os file_path w w' m E Ht Hs.
  rewrite extract_camera_model_value, E. cbn [fst snd res_bind identity_of]. rewrite Ht.
  destruct (model m); cbn; try reflexivity. now destruct (Hs s).
Qed.

Lemma extract_camera_model_raises_on_non_text_model_witness :
  extract_camera_model Sim.os "/card/a.jpg" (Sim.boot Demo.numeric_model [])
  = (Raise AttributeError,
     emit (SysExiftool "/card/a.jpg") (Sim.boot Demo.numeric_model [])).
Proof.
  apply (extract_camera_model_raises_on_non_text_model Sim.state Sim.os "/card/a.jpg"
           (Sim.boot Demo.numeric_model []) _
           (mkmeta (PyJson.JInt 6300) None)).
  - reflexivity.
  - reflexivity.
  - intros s. discriminate.
Defined.

(** The same photo stops the whole run: the exception leaves [main]. *)
Lemma numeric_model_stops_main :
  fst (main Sim.os Sim.in_order Sim.in_order (Sim.boot Demo.numeric_model (Demo.answers "")))
  = Raise AttributeError.
Proof. reflexivity. Qed.

(** *** The capture date *)

(** C6, as stated, fails on a video: [/card/b.mp4] carries a parsable
    [DateTimeOriginal] of 2024-06-01 10:00:00, and the date resolved for it
    is its modification time, 2024-07-15 08:30:00. *)
Lemma video_date_ignores_metadata :
  fst (exiftool_get_metadata Sim.os "/card/b.mp4" (Sim.boot Demo.card []))
  = Ok (Some (mkmeta PyJson.JNull
                (Some (PyTime.mkdatetime (Demo.d 2024 6 1) 10 0 0))))
  /\ fst (get_file_date Sim.os "/card/b.mp4" ".mp4" photo_extensions (Sim.boot Demo.card []))
     = Ok (PyTime.mkdatetime (Demo.d 2024 7 15) 8 30 0).
Proof. split; reflexivity. Qed.

(** C6, amended: for a file with a photo extension the probe is run, and
    the date is the embedded one when the probe returns a parsable embedded
    timestamp, and the modification time exactly when it does not; for
    every other file, videos included, it is the modification time and
    the metadata is not read at all. *)
Theorem get_file_date_sources :
  forall (fs : Type) (os : OS fs) (file_path ext : string) (exts : list string)
         (w : world fs),
    (PyStr.set_in ext exts = false ->
     get_file_date os file_path ext exts w = file_mtime os file_path w)
    /\ (PyStr.set_in ext exts = true ->
        exists meta w1,
          exiftool_get_metadata os file_path w = (Ok meta, w1)
          /\ get_file_date os file_path ext exts w
             = match embedded_date meta with
               | Some dt => (Ok dt, w1)
               | None => file_mtime os file_path w1
               end).
Proof.
  intros fs os file_path ext exts w. unfold get_file_date. split.
  - intros ->. reflexivity.
  - intros ->. destruct (exiftool_get_metadata_returns os file_path w) as (meta & w1 & E).
    exists meta, w1. split; [exact E|].
    rewrite (bind_ok _ _ _ _ _ E). destruct (embedded_date meta); reflexivity.
Qed.

Lemma get_file_date_sources_witness :
  get_file_date Sim.os "/card/b.mp4" ".mp4" photo_extensions (Sim.boot Demo.card [])
  = file_mtime Sim.os "/card/b.mp4" (Sim.boot Demo.card [])
  /\ exists meta w1,
       exiftool_get_metadata Sim.os "/card/a.jpg" (Sim.boot Demo.card []) = (Ok meta, w1)
       /\ get_file_date Sim.os "/card/a.jpg" ".jpg" photo_extensions (Sim.boot Demo.card [])
          = match embedded_date meta with
            | Some dt => (Ok dt, w1)
            | None => file_mtime Sim.os "/card/a.jpg" w1
            end.
Proof.
  split.
  - exact (proj1 (get_file_date_sources Sim.state Sim.os "/card/b.mp4" ".mp4"
                    photo_extensions (Sim.boot Demo.card [])) eq_refl).
  - exact (proj2 (get_file_date_sources Sim.state Sim.os "/card/a.jpg" ".jpg"
                    photo_extensions (Sim.boot Demo.card [])) eq_refl).
Defined.

(** On the sample card: a photo with an embedded date, a photo whose
    embedded date is in neither layout, and a video. *)
Lemma sample_dates :
  map (fun pe => fst (get_file_date Sim.os (fst pe) (snd pe) photo_extensions
                        (Sim.boot Demo.card [])))
      [("/card/a.jpg", ".jpg"); ("/card/c.jpg", ".jpg"); ("/card/b.mp4", ".mp4")]
  = [Ok (PyTime.mkdatetime (Demo.d 2024 6 1) 10 0 0);
     Ok (PyTime.mkdatetime (Demo.d 2024 7 15) 8 30 0);
     Ok (PyTime.mkdatetime (Demo.d 2024 7 15) 8 30 0)].
Proof. reflexivity. Qed.

(** *** The camera identity *)

Section Resolver.
Context {fs : Type} (os : OS fs).

Lemma first_model_step (pf : string) (rest : list string) (w : world fs) :
  first_model os (pf :: rest) w
  = match extract_camera_model os pf w with
    | (Ok (Some s), w1) =>
        if PyStr.nonempty s then (Ok (Some s), w1) else first_model os rest w1
    | (Ok None, w1) => first_model os rest w1
    | (Raise e, w1) => (Raise e, w1)
    end.
Proof.
  cbn [first_model]. unfold bind.
  destruct (extract_camera_model os pf w) as [[[s|]|e] w1]; try reflexivity.
  destruct (PyStr.nonempty s); reflexivity.
Qed.

Lemma yields_nothing_fs (pf : string) (w1 w2 : world fs) :
  w_fs w1 = w_fs w2 -> yields_nothing os pf w1 -> yields_nothing os pf w2.
Proof.
  unfold yields_nothing. intros E. now rewrite (extract_camera_model_fs os pf w1 w2 E).
Qed.

(** What the scan over the completed probes returns. *)
Lemma first_model_spec (completed : list string) :
  forall w : world fs,
    match fst (first_model os completed w) with
    | Ok None => forall pf, In pf completed -> yields_nothing os pf w
    | Ok (Some m) =>
        PyStr.nonempty m = true
        /\ exists pf, In pf completed /\ fst (extract_camera_model os pf w) = Ok (Some m)
    | Raise e =>
        exists pf, In pf completed /\ fst (extract_camera_model os pf w) = Raise e
    end.
Proof.
  induction completed as [|pf rest IH]; intros w.
  - cbn. intros pf [].
  - rewrite first_model_step.
    pose proof (extract_camera_model_keeps_fs os pf w) as Hfs.
    destruct (extract_camera_model os pf w) as [[[s|]|e] w1] eqn:E; cbn [snd] in Hfs.
    + destruct (PyStr.nonempty s) eqn:Hs.
      * cbn [fst]. split; [exact Hs|]. exists pf. split; [now left|]. now rewrite E.
      * specialize (IH w1). destruct (fst (first_model os rest w1)) as [[m|]|e].
        -- destruct IH as (Hm & pf' & Hin & Hpf'). split; [exact Hm|].
           exists pf'. split; [now right|].
           now rewrite (extract_camera_model_fs os pf' w w1) by congruence.
        -- intros pf' [<-|Hin].
           ++ right. rewrite E. cbn [fst]. destruct s; [reflexivity|discriminate].
           ++ apply (yields_nothing_fs pf' w1 w); [assumption|now apply IH].
        -- destruct IH as (pf' & Hin & Hpf'). exists pf'. split; [now right|].
           now rewrite (extract_camera_model_fs os pf' w w1) by congruence.
    + specialize (IH w1). destruct (fst (first_model os rest w1)) as [[m|]|e].
      * destruct IH as (Hm & pf' & Hin & Hpf'). split; [exact Hm|].
        exists pf'. split; [now right|].
        now rewrite (extract_camera_model_fs os pf' w w1) by congruence.
      * intros pf' [<-|Hin].
        -- left. now rewrite E.
        -- apply (yields_nothing_fs pf' w1 w); [assumption|now apply IH].
      * destruct IH as (pf' & Hin & Hpf'). exists pf'. split; [now right|].
        now rewrite (extract_camera_model_fs os pf' w w1) by congruence.
    + cbn [fst]. exists pf. split; [now left|]. now rewrite E.
Qed.

Lemma first_model_none_iff (completed : list string) (w : world fs) :
  fst (first_model os completed w) = Ok None
  <-> forall pf, In pf completed -> yields_nothing os pf w.
Proof.
  pose proof (first_model_spec completed w) as H. split.
  - intros E. now rewrite E in H.
  - intros Hall. destruct (fst (first_model os completed w)) as [[m|]|e].
    + destruct H as (Hm & pf & Hin & Hpf).
      destruct (Hall pf Hin) as [Hn|Hn]; rewrite Hpf in Hn; [discriminate|].
      injection Hn as ->. discriminate.
    + reflexivity.
    + destruct H as (pf & Hin & Hpf).
      destruct (Hall pf Hin) as [Hn|Hn]; rewrite Hpf in Hn; discriminate.
Qed.

End Resolver.

(** C4: with no candidate the resolver returns "not found" at once,
    leaving the world as it was, so that no probe is launched; it returns
    "not found" exactly when there is no candidate or every probe
    completes with no identity or an empty one; and an identity that it
    returns is non-empty and is the one some probe of a candidate yields.
    [as_completed] is any order of completion of the submitted probes. *)
Theorem resolver_not_found_iff_no_identity :
  forall (fs : Type) (os : OS fs) (as_completed : list string -> list string)
         (photo_files : list string) (w : world fs),
    Permutation (as_completed photo_files) photo_files ->
    (photo_files = [] ->
     find_first_camera_model_in_parallel os as_completed photo_files w = (Ok None, w))
    /\ (fst (find_first_camera_model_in_parallel os as_completed photo_files w) = Ok None
        <-> photo_files = []
            \/ forall pf, In pf photo_files -> yields_nothing os pf w)
    /\ (forall m,
           fst (find_first_camera_model_in_parallel os as_completed photo_files w)
           = Ok (Some m) ->
           m <> EmptyString
           /\ exists pf, In pf photo_files
                         /\ fst (extract_camera_model os pf w) = Ok (Some m)).
Proof.
  intros fs os as_completed photo_files w Hperm.
  split; [intros ->; reflexivity|].
  destruct photo_files as [|pf0 rest].
  - split.
    + split; [now left|reflexivity].
    + intros m H. discriminate.
  - change (find_first_camera_model_in_parallel os as_completed (pf0 :: rest) w)
      with (first_model os (as_completed (pf0 :: rest)) w).
    split.
    + rewrite first_model_none_iff. split.
      * intros H. right. intros pf Hin. apply H.
        eapply Permutation_in; [apply Permutation_sym; exact Hperm|exact Hin].
      * intros [H|H]; [discriminate|].
        intros pf Hin. apply H. eapply Permutation_in; [exact Hperm|exact Hin].
    + intros m Hm. pose proof (first_model_spec os (as_completed (pf0 :: rest)) w) as H.
      rewrite Hm in H. destruct H as (Hne & pf & Hin & Hpf). split.
      * intros ->. discriminate.
      * exists pf. split; [|exact Hpf]. eapply Permutation_in; [exact Hperm|exact Hin].
Qed.

Lemma resolver_not_found_iff_no_identity_witness :
  find_first_camera_model_in_parallel Sim.os Sim.in_order [] (Sim.boot Demo.card [])
  = (Ok None, Sim.boot Demo.card [])
  /\ fst (find_first_camera_model_in_parallel Sim.os (@rev string)
            ["/card/a.jpg"; "/card/c.jpg"] (Sim.boot Demo.card []))
     = Ok (Some "EOS R5").
Proof.
  split.
  - exact (proj1 (resolver_not_found_iff_no_identity Sim.state Sim.os Sim.in_order []
                    (Sim.boot Demo.card []) (Permutation_refl _)) eq_refl).
  - reflexivity.
Defined.

(** *** A malformed date filter *)




(** *** The destination layout *)




Section Quiet.
Context {fs : Type} (os : OS fs).

















End Quiet.



(** The same run, computed: every planned folder was missing and made. *)
Lemma sample_layout :
  dir_ops (w_trace (snd (prepare_destination Sim.os no_filter "/card" "/ev" "EOS_R5_Jane"
                           None (Sim.boot Demo.card []))))
  = [SysExists "/ev/Graphics"; SysMakedirs "/ev/Graphics";
     SysExists "/ev/Photography/EOS_R5_Jane"; SysMakedirs "/ev/Photography/EOS_R5_Jane";
     SysExists "/ev/Videography"; SysMakedirs "/ev/Videography";
     SysExists "/ev/Videography/EOS_R5_Jane"; SysMakedirs "/ev/Videography/EOS_R5_Jane";
     SysExists "/ev/Videography/EXPORT"; SysMakedirs "/ev/Videography/EXPORT";
     SysExists "/ev/Videography/Project Files";
     SysMakedirs "/ev/Videography/Project Files";
     SysExists "/ev/Videography/VFX + SFX Folder";
     SysMakedirs "/ev/Videography/VFX + SFX Folder"].
Proof. reflexivity. Qed.

(** *** Copy and verification *)

Section Transfer.
Context {fs : Type} (os : OS fs).





(** The name a worker returns is the name of its own file. *)
Lemma process_file_name (t : task) (w w' : world fs) (b : bool) (name : string) :
  process_file os t w = (Ok (b, name), w') -> name = t_file_name t.
Proof.
  unfold process_file. destruct (target_folder t) as [folder|].
  - unfold bind, ret.
    destruct (create_directory os folder w) as [[[]|e] w1]; [|discriminate].
    destruct (secure_copy os _ _ w1) as [[b'|e] w2]; [|discriminate].
    now intros [= _ <- _].
  - now intros [= _ <- _].
Qed.

(** *** The summary *)

Lemma collect_step (t : task) (rest : list task) (s : summary) (fn : option string)
    (w : world fs) :
  collect os (t :: rest) (s, fn) w
  = match process_file os t w with
    | (Ok (true, name), w1) =>
        collect os rest (mksummary (success_count s + 1) (skipped_files s), Some name) w1
    | (Ok (false, name), w1) =>
        collect os rest
          (mksummary (success_count s) (skipped_files s ++ [name]), Some name) w1
    | (Raise _, w1) =>
        match fn with
        | Some name =>
            collect os rest (mksummary (success_count s) (skipped_files s ++ [name]), fn) w1
        | None => (Raise UnboundLocalError, w1)
        end
    end.
Proof.
  cbn [collect]. unfold bind at 1. unfold collect_one, try_except, bind at 1.
  destruct (process_file os t w) as [[[[] name]|e] w1]; try reflexivity.
  destruct fn; reflexivity.
Qed.

(** When the worker of [t] raises, the entry added to the skipped list is
    whatever [file_name] held before, not the name of [t]. *)
Lemma collect_records_stale_name (t : task) (rest : list task) (s : summary)
    (name : string) (w w1 : world fs) (e : exn) :
  process_file os t w = (Raise e, w1) ->
  collect os (t :: rest) (s, Some name) w
  = collect os rest
      (mksummary (success_count s) (skipped_files s ++ [name]), Some name) w1.
Proof. intros E. now rewrite collect_step, E. Qed.

(** Every future adds one to the success count or one entry to the list
    of skipped files, never both and never neither. *)
Lemma collect_counts (completed : list task) :
  forall (s s' : summary) (fn fn' : option string) (w w' : world fs),
    collect os completed (s, fn) w = (Ok (s', fn'), w') ->
    success_count s'
    = success_count s + Z.of_nat (List.length (filter succeeded (outcomes os completed w)))
    /\ List.length (skipped_files s')
       = (List.length (skipped_files s)
          + List.length (filter (fun r => negb (succeeded r)) (outcomes os completed w)))%nat
    /\ List.length (outcomes os completed w) = List.length completed.
Proof.
  induction completed as [|t rest IH]; intros s s' fn fn' w w'.
  - intros [= <- _ _]. cbn. split; [lia|]. split; [lia|reflexivity].
  - rewrite collect_step. cbn [outcomes].
    destruct (process_file os t w) as [[[[] name]|e] w1]; cbn [filter succeeded negb].
    + intros H. apply IH in H as (H1 & H2 & H3). cbn [success_count skipped_files] in *.
      cbn [List.length]. repeat split; lia.
    + intros H. apply IH in H as (H1 & H2 & H3). cbn [success_count skipped_files] in *.
      rewrite length_app in H2. cbn [List.length] in *. repeat split; lia.
    + destruct fn as [name|]; [|discriminate].
      intros H. apply IH in H as (H1 & H2 & H3). cbn [success_count skipped_files] in *.
      rewrite length_app in H2. cbn [List.length] in *. repeat split; lia.
Qed.

(** The loop comes to its end as soon as [file_name] is bound when the
    first future is collected. *)
Lemma collect_returns (completed : list task) :
  forall (s : summary) (fn : option string) (w : world fs),
    (completed <> [] -> fn <> None) ->
    exists s' fn' w', collect os completed (s, fn) w = (Ok (s', fn'), w').
Proof.
  induction completed as [|t rest IH]; intros s fn w Hfn.
  - eexists _, _, _. reflexivity.
  - rewrite collect_step.
    destruct (process_file os t w) as [[[[] name]|e] w1].
    + apply IH. discriminate.
    + apply IH. discriminate.
    + destruct fn as [name|]; [|exfalso; apply Hfn; [discriminate|reflexivity]].
      apply IH. discriminate.
Qed.

(** The equation of the summary: successes plus skipped files make up the
    files submitted. *)
Lemma transfer_counts_every_file (as_completed : list task -> list task)
    (files_to_process : list task) (file_name : option string) (w : world fs) :
  Permutation (as_completed files_to_process) files_to_process ->
  (files_to_process <> [] -> file_name <> None) ->
  exists s w',
    transfer os as_completed files_to_process file_name w = (Ok s, w')
    /\ success_count s + Z.of_nat (List.length (skipped_files s))
       = Z.of_nat (List.length files_to_process).
Proof.
  intros Hperm Hfn. unfold transfer, bind.
  destruct (collect_returns (as_completed files_to_process) (mksummary 0 []) file_name w)
    as (s & fn & w' & E).
  { intros Hne. apply Hfn. intros ->. apply Hne.
    now apply Permutation_nil, Permutation_sym. }
  rewrite E. exists s, w'. split; [reflexivity|].
  apply collect_counts in E as (H1 & H2 & H3). cbn [success_count skipped_files] in *.
  rewrite <- (Permutation_length Hperm), <- H3.
  rewrite H1, H2. cbn [List.length].
  pose proof (filter_length succeeded (outcomes os (as_completed files_to_process) w)).
  lia.
Qed.

End Transfer.

(** [main] reaches the transfer stage with [file_name] bound whenever
    there is a file to process: the loop of lines 217-231 binds it before
    it appends. *)
Lemma build_in_binds_name {fs : Type} (os : OS fs) (df : date_filter) (root : string)
    (files : list string) (pm vm : string) :
  forall (acc acc' : list task) (fn fn' : option string) (w w' : world fs),
    (acc <> [] -> fn <> None) ->
    build_in os df root files pm vm acc fn w = (Ok (acc', fn'), w') ->
    acc' <> [] -> fn' <> None.
Proof.
  induction files as [|f rest IH]; intros acc acc' fn fn' w w' Hinv; cbn [build_in].
  - intros [= <- <- _]. exact Hinv.
  - unfold bind at 1.
    destruct (consider os df root f pm vm acc w) as [[acc1|e] w1]; [|discriminate].
    apply IH. discriminate.
Qed.

Lemma build_tree_binds_name {fs : Type} (os : OS fs) (df : date_filter)
    (tree : list (string * list string)) (pm vm : string) :
  forall (acc acc' : list task) (fn fn' : option string) (w w' : world fs),
    (acc <> [] -> fn <> None) ->
    build_tree os df tree pm vm acc fn w = (Ok (acc', fn'), w') ->
    acc' <> [] -> fn' <> None.
Proof.
  induction tree as [|[root files] rest IH]; intros acc acc' fn fn' w w' Hinv;
    cbn [build_tree].
  - intros [= <- <- _]. exact Hinv.
  - unfold bind at 1.
    destruct (build_in os df root files pm vm acc fn w) as [[[acc1 fn1]|e] w1] eqn:E;
      [|discriminate].
    cbn [fst snd]. apply IH. eapply build_in_binds_name; eauto.
Qed.

Lemma build_file_list_binds_name {fs : Type} (os : OS fs) (df : date_filter)
    (source_folder pm vm : string) (fn fn' : option string) (files : list task)
    (w w' : world fs) :
  build_file_list os df source_folder pm vm fn w = (Ok (files, fn'), w') ->
  files <> [] -> fn' <> None.
Proof.
  unfold build_file_list, bind, print, walk.
  apply build_tree_binds_name. intros H. now destruct H.
Qed.



(** The scenario of the specification, run through [main]: the file whose
    copy is truncated is reported with the mismatch line and is the only
    one skipped, in whatever order the copies complete. *)
Lemma size_mismatch_scenario :
  fst (main Sim.os Sim.in_order Sim.in_order (Sim.boot Demo.truncating (Demo.answers "")))
  = Ok (mksummary 2 ["b.jpg"])
  /\ fst (main Sim.os Sim.in_order (@rev task) (Sim.boot Demo.truncating (Demo.answers "")))
     = Ok (mksummary 2 ["b.jpg"])
  /\ In (Line "Warning: Size mismatch for b.jpg")
        (w_stdout (snd (main Sim.os Sim.in_order Sim.in_order
                          (Sim.boot Demo.truncating (Demo.answers ""))))).
Proof.
  repeat split; try reflexivity. vm_compute. tauto.
Qed.

(** C1 against the code: when a worker raises, line 268 appends the name
    last bound to [file_name], which is not the name of the file that
    failed.  In the event folder [locked] the folder [JPG] cannot be made,
    so the worker of [a.jpg] raises, while [b.mp4] is copied and verified;
    the summary counts one success and lists [b.mp4] as skipped: [b.mp4]
    has two outcomes and [a.jpg] has none, in either order of completion
    and in the run of [main] as a whole. *)
Theorem failed_list_names_the_wrong_file :
  outcomes Sim.os [Demo.task_for "a.jpg"; Demo.task_for "b.mp4"] (Sim.boot Demo.locked [])
  = [Raise (OSError "PermissionError"); Ok (true, "b.mp4")]
  /\ fst (transfer Sim.os Sim.in_order [Demo.task_for "a.jpg"; Demo.task_for "b.mp4"]
            (Some "b.mp4") (Sim.boot Demo.locked []))
     = Ok (mksummary 1 ["b.mp4"])
  /\ fst (transfer Sim.os (@rev task) [Demo.task_for "a.jpg"; Demo.task_for "b.mp4"]
            (Some "b.mp4") (Sim.boot Demo.locked []))
     = Ok (mksummary 1 ["b.mp4"])
  /\ fst (main Sim.os Sim.in_order Sim.in_order (Sim.boot Demo.locked (Demo.answers "")))
     = Ok (mksummary 1 ["b.mp4"])
  /\ Sim.is_file "/ev/Videography/EOS_R5_Jane/MP4/b.mp4"
       (w_fs (snd (main Sim.os Sim.in_order Sim.in_order
                     (Sim.boot Demo.locked (Demo.answers ""))))) = true
  /\ Sim.is_file "/ev/Photography/EOS_R5_Jane/JPG/a.jpg"
       (w_fs (snd (main Sim.os Sim.in_order Sim.in_order
                     (Sim.boot Demo.locked (Demo.answers ""))))) = false.
Proof. repeat split; reflexivity. Qed.

(** *** File names and folders *)

Lemma lower_char_marks : keeps_marks PyStr.lower_char.
Proof.
  intros a c [<-|[<-|[]]]; destruct a as [[] [] [] [] [] [] [] []]; reflexivity.
Qed.

Lemma upper_char_marks : keeps_marks PyStr.upper_char.
Proof.
  intros a c [<-|[<-|[]]]; destruct a as [[] [] [] [] [] [] [] []]; reflexivity.
Qed.

Lemma lower_upper_char (a : ascii) :
  PyStr.lower_char (PyStr.upper_char a) = PyStr.lower_char a.
Proof. destruct a as [[] [] [] [] [] [] [] []]; reflexivity. Qed.

Lemma upper_lower_char (a : ascii) :
  PyStr.upper_char (PyStr.lower_char a) = PyStr.upper_char a.
Proof. destruct a as [[] [] [] [] [] [] [] []]; reflexivity. Qed.

Lemma map_chars_compose (f g : ascii -> ascii) (s : string) :
  PyStr.map_chars f (PyStr.map_chars g s) = PyStr.map_chars (fun a => f (g a)) s.
Proof. induction s as [|a s IH]; cbn; [reflexivity|now rewrite IH]. Qed.

Lemma map_chars_ext (f g : ascii -> ascii) (s : string) :
  (forall a, f a = g a) -> PyStr.map_chars f s = PyStr.map_chars g s.
Proof. intros H. induction s as [|a s IH]; cbn; [reflexivity|now rewrite H, IH]. Qed.

Lemma lower_upper (s : string) : PyStr.lower (PyStr.upper s) = PyStr.lower s.
Proof.
  unfold PyStr.lower, PyStr.upper. rewrite map_chars_compose.
  apply map_chars_ext, lower_upper_char.
Qed.

Lemma upper_lower (s : string) : PyStr.upper (PyStr.lower s) = PyStr.upper s.
Proof.
  unfold PyStr.lower, PyStr.upper. rewrite map_chars_compose.
  apply map_chars_ext, upper_lower_char.
Qed.

Lemma lower_lower (s : string) : PyStr.lower (PyStr.lower s) = PyStr.lower s.
Proof.
  unfold PyStr.lower. rewrite map_chars_compose. apply map_chars_ext.
  intros a. destruct a as [[] [] [] [] [] [] [] []]; reflexivity.
Qed.

Section Marks.
Variable f : ascii -> ascii.
Hypothesis Hf : keeps_marks f.

Lemma rfind_from_map (c : ascii) (s : string) :
  In c ["."%char; "/"%char] ->
  forall i last, PyStr.rfind_from c (PyStr.map_chars f s) i last = PyStr.rfind_from c s i last.
Proof.
  intros Hc. induction s as [|a s IH]; intros i last; cbn; [reflexivity|].
  now rewrite (Hf a c Hc), IH.
Qed.

Lemma drop_map (n : nat) (s : string) :
  PyStr.drop n (PyStr.map_chars f s) = PyStr.map_chars f (PyStr.drop n s).
Proof.
  revert s. induction n as [|n IH]; intros [|a s]; cbn; auto.
Qed.

Lemma take_map (n : nat) (s : string) :
  PyStr.take n (PyStr.map_chars f s) = PyStr.map_chars f (PyStr.take n s).
Proof.
  revert s. induction n as [|n IH]; intros [|a s]; cbn; auto. now rewrite IH.
Qed.

Lemma all_dots_map (s : string) : PyStr.all_dots (PyStr.map_chars f s) = PyStr.all_dots s.
Proof.
  induction s as [|a s IH]; cbn; [reflexivity|].
  now rewrite (Hf a "."%char (or_introl eq_refl)), IH.
Qed.

(** The extension of a re-cased name is the re-cased extension. *)
Lemma splitext_ext_map (s : string) :
  PyStr.splitext_ext (PyStr.map_chars f s) = PyStr.map_chars f (PyStr.splitext_ext s).
Proof.
  unfold PyStr.splitext_ext, PyStr.rfind.
  rewrite !rfind_from_map by (cbn; auto).
  rewrite drop_map, take_map, all_dots_map, drop_map.
  destruct (_ && _); reflexivity.
Qed.

End Marks.

Lemma splitext_ext_upper (s : string) :
  PyStr.splitext_ext (PyStr.upper s) = PyStr.upper (PyStr.splitext_ext s).
Proof. apply splitext_ext_map, upper_char_marks. Qed.

Lemma splitext_ext_lower (s : string) :
  PyStr.splitext_ext (PyStr.lower s) = PyStr.lower (PyStr.splitext_ext s).
Proof. apply splitext_ext_map, lower_char_marks. Qed.

Lemma drop_lower (n : nat) (s : string) :
  PyStr.drop n (PyStr.lower s) = PyStr.lower (PyStr.drop n s).
Proof. apply drop_map. Qed.

Lemma target_folder_of_ext (t : task) (folder : string) :
  target_folder t = Some folder ->
  (folder = PyStr.join (t_photography_main t)
              [PyStr.upper (PyStr.drop 1 (PyStr.splitext_ext (t_file_name t)))]
   \/ folder = PyStr.join (t_videography_main t)
                 [PyStr.upper (PyStr.drop 1 (PyStr.splitext_ext (t_file_name t)))]).
Proof.
  unfold target_folder. rewrite drop_lower, upper_lower.
  destruct (PyStr.set_in _ (t_photo_exts t)); [intros [= <-]; now left|].
  destruct (PyStr.set_in _ (t_video_exts t)); [intros [= <-]; now right|discriminate].
Qed.

(** X1: the folder of a file does not depend on the letter case of its
    name: the name in capitals and the name in small letters go where the
    name itself goes, and that folder, when there is one, is the photo or
    the video root followed by the extension in capitals, without its
    dot. *)
Theorem folder_ignores_letter_case :
  forall t : task,
    target_folder (rename (PyStr.upper (t_file_name t)) t) = target_folder t
    /\ target_folder (rename (PyStr.lower (t_file_name t)) t) = target_folder t
    /\ forall folder,
         target_folder t = Some folder ->
         folder = PyStr.join (t_photography_main t)
                    [PyStr.upper (PyStr.drop 1 (PyStr.splitext_ext (t_file_name t)))]
         \/ folder = PyStr.join (t_videography_main t)
                       [PyStr.upper (PyStr.drop 1 (PyStr.splitext_ext (t_file_name t)))].
Proof.
  intros t. split; [|split].
  - unfold target_folder, rename. cbn [t_file_name t_photo_exts t_video_exts
      t_photography_main t_videography_main].
    now rewrite splitext_ext_upper, lower_upper.
  - unfold target_folder, rename. cbn [t_file_name t_photo_exts t_video_exts
      t_photography_main t_videography_main].
    now rewrite splitext_ext_lower, lower_lower.
  - apply target_folder_of_ext.
Qed.

Lemma folder_ignores_letter_case_witness :
  target_folder (Demo.task_for "IMG_1.Cr2") = Some "/ev/Photography/EOS_R5_Jane/CR2"
  /\ target_folder (Demo.task_for "IMG_1.CR2") = target_folder (Demo.task_for "IMG_1.Cr2")
  /\ target_folder (Demo.task_for "img_1.cr2") = target_folder (Demo.task_for "IMG_1.Cr2").
Proof.
  split; [reflexivity|]. split.
  - exact (proj1 (folder_ignores_letter_case (Demo.task_for "IMG_1.Cr2"))).
  - exact (proj1 (proj2 (folder_ignores_letter_case (Demo.task_for "IMG_1.Cr2")))).
Defined.

Lemma length_append (a b : string) :
  String.length (a ++ b) = (String.length a + String.length b)%nat.
Proof. induction a as [|c a IH]; cbn; [reflexivity|now rewrite IH]. Qed.

(** Replacing one character by another one. *)
Lemma replace_char_spec (c0 n : ascii) (s : string) :
  PyStr.replace (String c0 "") (String n "") s
  = PyStr.map_chars (fun a => if Ascii.eqb c0 a then n else a) s.
Proof.
  unfold PyStr.replace. induction s as [|a s IH]; [reflexivity|].
  cbn [PyStr.replace_from PyStr.startswith String.length Nat.sub PyStr.map_chars].
  rewrite IH. destruct (Ascii.eqb c0 a); reflexivity.
Qed.

Lemma map_chars_length (f : ascii -> ascii) (s : string) :
  String.length (PyStr.map_chars f s) = String.length s.
Proof. induction s as [|a s IH]; cbn; [reflexivity|now rewrite IH]. Qed.

Lemma all_chars_map (p : ascii -> bool) (f : ascii -> ascii) (s : string) :
  (forall a, p (f a) = true) -> all_chars p (PyStr.map_chars f s) = true.
Proof. intros H. induction s as [|a s IH]; cbn; [reflexivity|now rewrite H, IH]. Qed.

(** X2: the folder suffix built at line 204 never holds a blank, whatever
    the camera model and the name typed in; it is as long as the model, an
    underscore and the name together; and when neither holds a blank it is
    the model, an underscore and the name, unchanged. *)
Theorem folder_suffix_has_no_space :
  forall camera_model photographer_name : string,
    all_chars (other_than " ") (folder_suffix camera_model photographer_name) = true
    /\ String.length (folder_suffix camera_model photographer_name)
       = (String.length camera_model + 1 + String.length photographer_name)%nat
    /\ (all_chars (other_than " ") camera_model = true ->
        all_chars (other_than " ") photographer_name = true ->
        folder_suffix camera_model photographer_name
        = camera_model ++ "_" ++ photographer_name).
Proof.
  intros cm pn. unfold folder_suffix. split; [|split].
  - rewrite replace_char_spec. apply all_chars_map.
    intros a. unfold other_than. destruct (Ascii.eqb_spec " " a) as [<-|Hne]; [reflexivity|].
    now destruct (Ascii.eqb_spec " " a).
  - rewrite replace_char_spec, map_chars_length, length_append. cbn. lia.
  - intros Hcm Hpn. apply (replace_absent " " "").
    now rewrite !all_chars_app, Hcm, Hpn.
Qed.

Lemma folder_suffix_has_no_space_witness :
  folder_suffix "EOS_R5" "Jane" = "EOS_R5" ++ "_" ++ "Jane"
  /\ folder_suffix "EOS R5" "Jane Doe" = "EOS_R5_Jane_Doe".
Proof.
  split; [|reflexivity].
  exact (proj2 (proj2 (folder_suffix_has_no_space "EOS_R5" "Jane")) eq_refl eq_refl).
Defined.

(** [main] names the two roots with this suffix. *)
Lemma main_uses_folder_suffix {fs : Type} (os : OS fs)
    (pc : list string -> list string) (cc : list task -> list task) :
  main os pc cc
  = (source_folder <- input "Enter the source folder path where your media files are located: " ;;
     event_folder <- input "Enter the destination event folder path (parent folder): " ;;
     photographer_name <- input "Enter your name: " ;;
     df <- prompt_date_filter ;;
     g <- gather_photo_files os (PyStr.strip source_folder) ;;
     camera_model <- resolve_camera_model os pc (fst g) ;;
     r <- prepare_destination os df (PyStr.strip source_folder) (PyStr.strip event_folder)
            (folder_suffix camera_model (PyStr.strip photographer_name)) (snd g) ;;
     s <- transfer os cc (fst r) (snd r) ;;
     report s ;;
     ret s).
Proof. reflexivity. Qed.

(** *** The two walks over the source *)

Section Lists.
Context {fs : Type} (os : OS fs).

Lemma gather_in_spec (root : string) (files : list string) :
  forall (acc : list string) (fn : option string),
    gather_in root files acc fn
    = ((acc ++ map (fun f => PyStr.join root [f])
                   (filter (fun f => negb (hidden f) && is_photo f) files))%list,
       fold_left (fun _ f => Some f) files fn).
Proof.
  induction files as [|f rest IH]; intros acc fn; cbn [gather_in filter map fold_left].
  - now rewrite app_nil_r.
  - unfold is_photo at 1. destruct (hidden f); cbn [negb andb]; [apply IH|].
    destruct (PyStr.set_in _ photo_extensions); rewrite IH; cbn [map];
      [now rewrite <- app_assoc|reflexivity].
Qed.

Lemma gather_tree_spec (tree : list (string * list string)) :
  forall (acc : list string) (fn : option string),
    gather_tree tree acc fn = ((acc ++ photo_paths tree)%list, last_name tree fn).
Proof.
  induction tree as [|[root files] rest IH]; intros acc fn;
    cbn [gather_tree photo_paths flat_map last_name fold_left fst snd].
  - now rewrite app_nil_r.
  - rewrite gather_in_spec, IH. now rewrite <- app_assoc.
Qed.

(** Reading a date does not change the file system or the pending input,
    and its result depends on the file system only. *)
Lemma get_file_date_reads (file_path ext : string) (exts : list string) (w : world fs) :
  w_fs (snd (get_file_date os file_path ext exts w)) = w_fs w
  /\ w_stdin (snd (get_file_date os file_path ext exts w)) = w_stdin w
  /\ forall w2, w_fs w2 = w_fs w ->
                fst (get_file_date os file_path ext exts w2)
                = fst (get_file_date os file_path ext exts w).
Proof.
  assert (Hm : forall u : world fs,
             w_fs (snd (file_mtime os file_path u)) = w_fs u
             /\ w_stdin (snd (file_mtime os file_path u)) = w_stdin u
             /\ fst (file_mtime os file_path u)
                = match os_path_getmtime os file_path (w_fs u) with
                  | Ok t => Ok (fromtimestamp os t)
                  | Raise e => Raise e
                  end).
  { intros u. unfold file_mtime, bind, getmtime, ret.
    destruct (os_path_getmtime os file_path (w_fs u)); cbn; auto. }
  unfold get_file_date. destruct (PyStr.set_in ext exts).
  - assert (Hx : forall u : world fs,
               exists meta u1, exiftool_get_metadata os file_path u = (Ok meta, u1)
                               /\ w_fs u1 = w_fs u /\ w_stdin u1 = w_stdin u
                               /\ Ok meta = fst (exiftool_get_metadata os file_path u)).
    { intros u. destruct (exiftool_get_metadata_returns os file_path u) as (meta & u1 & E).
      exists meta, u1. pose proof (exiftool_get_metadata_reads os file_path u) as (H1 & H2 & _).
      rewrite E in *. cbn in *. auto. }
    destruct (Hx w) as (meta & w1 & E & Hfs & Hin & Hv).
    rewrite (bind_ok _ _ _ _ _ E).
    split; [|split].
    + destruct (embedded_date meta); cbv beta iota; [exact Hfs|].
      destruct (Hm w1) as (-> & _ & _). exact Hfs.
    + destruct (embedded_date meta); cbv beta iota; [exact Hin|].
      destruct (Hm w1) as (_ & -> & _). exact Hin.
    + intros w2 Hw2. destruct (Hx w2) as (meta2 & w3 & E2 & Hfs2 & _ & Hv2).
      rewrite (bind_ok _ _ _ _ _ E2).
      assert (meta2 = meta) as ->.
      { rewrite (exiftool_get_metadata_fs os file_path w2 w Hw2) in Hv2. congruence. }
      destruct (embedded_date meta); cbv beta iota; [reflexivity|].
      destruct (Hm w1) as (_ & _ & ->). destruct (Hm w3) as (_ & _ & ->).
      now rewrite Hfs, Hfs2, Hw2.
  - destruct (Hm w) as (H1 & H2 & H3). split; [exact H1|]. split; [exact H2|].
    intros w2 Hw2. destruct (Hm w2) as (_ & _ & ->). now rewrite H3, Hw2.
Qed.

(** One file of the second walk. *)
Lemma consider_spec (df : date_filter) (root f pm vm : string) (acc : list task)
    (w : world fs) :
  exists w1,
    consider os df root f pm vm acc w
    = (match passes os df (w_fs w) root f with
       | Ok true => Ok (acc ++ [mktask root f pm vm photo_extensions video_extensions])%list
       | Ok false => Ok acc
       | Raise e => Raise e
       end, w1)
    /\ w_fs w1 = w_fs w /\ w_stdin w1 = w_stdin w.
Proof.
  unfold consider, passes. destruct (hidden f); [exists w; auto|].
  destruct (use_date_filter df); [|exists w; auto].
  unfold bind at 1. unfold bind at 1.
  pose proof (get_file_date_reads (PyStr.join root [f])
                (PyStr.lower (PyStr.splitext_ext f)) photo_extensions w) as (Hfs & Hin & Hv).
  unfold resolved_date.
  rewrite (Hv (mkworld (w_fs w) [] [] []) eq_refl).
  destruct (get_file_date os _ _ photo_extensions w) as [[dt|e] w1]; cbn [fst snd] in *.
  - unfold lift. cbn [res_bind].
    exists w1. destruct (in_window df (PyTime.date_of dt)) as [[]|e]; auto.
  - exists w1. auto.
Qed.

Lemma build_in_spec (df : date_filter) (root : string) (files : list string)
    (pm vm : string) :
  forall (acc : list task) (fn : option string) (w : world fs) r w',
    build_in os df root files pm vm acc fn w = (r, w') ->
    w_fs w' = w_fs w /\ w_stdin w' = w_stdin w
    /\ forall l fn', r = Ok (l, fn') ->
         l = (acc ++ map (fun f => mktask root f pm vm photo_extensions video_extensions)
                         (filter (fun f => surely (passes os df (w_fs w) root f)) files))%list
         /\ fn' = fold_left (fun _ f => Some f) files fn.
Proof.
  induction files as [|f rest IH]; intros acc fn w r w'; cbn [build_in filter map fold_left].
  - intros [= <- <-]. split; [reflexivity|]. split; [reflexivity|].
    intros l fn' [= <- <-]. now rewrite app_nil_r.
  - unfold bind at 1.
    destruct (consider_spec df root f pm vm acc w) as (w1 & -> & Hfs & Hin).
    destruct (passes os df (w_fs w) root f) as [[]|e] eqn:Ep; cbn [surely].
    + intros H. apply IH in H as (H1 & H2 & H3). rewrite Hfs in *.
      split; [congruence|]. split; [congruence|].
      intros l fn' Hr. destruct (H3 l fn' Hr) as (-> & ->).
      cbn [map]. now rewrite <- app_assoc.
    + intros H. apply IH in H as (H1 & H2 & H3). rewrite Hfs in *.
      split; [congruence|]. split; [congruence|]. exact H3.
    + intros [= <- <-]. split; [exact Hfs|]. split; [exact Hin|]. discriminate.
Qed.

Lemma build_tree_spec (df : date_filter) (tree : list (string * list string))
    (pm vm : string) :
  forall (acc : list task) (fn : option string) (w : world fs) r w',
    build_tree os df tree pm vm acc fn w = (r, w') ->
    w_fs w' = w_fs w /\ w_stdin w' = w_stdin w
    /\ forall l fn', r = Ok (l, fn') ->
         l = (acc ++ passing_tasks os df (w_fs w) pm vm tree)%list
         /\ fn' = last_name tree fn.
Proof.
  induction tree as [|[root files] rest IH]; intros acc fn w r w';
    cbn [build_tree passing_tasks flat_map last_name fold_left fst snd].
  - intros [= <- <-]. split; [reflexivity|]. split; [reflexivity|].
    intros l fn' [= <- <-]. now rewrite app_nil_r.
  - unfold bind at 1.
    destruct (build_in os df root files pm vm acc fn w) as [[[l1 fn1]|e] w1] eqn:E1.
    + apply build_in_spec in E1 as (Hfs & Hin & H1).
      destruct (H1 l1 fn1 eq_refl) as (-> & ->). cbn [fst snd].
      intros H. apply IH in H as (H2 & H3 & H4). rewrite Hfs in *.
      split; [congruence|]. split; [congruence|].
      intros l fn' Hr. destruct (H4 l fn' Hr) as (-> & ->).
      split; [|reflexivity]. unfold passing_tasks. now rewrite <- app_assoc.
    + apply build_in_spec in E1 as (Hfs & Hin & _).
      intros [= <- <-]. split; [exact Hfs|]. split; [exact Hin|]. discriminate.
Qed.

(** When every file that is not hidden gets a verdict, the walk comes to
    its end. *)
Lemma build_in_returns (df : date_filter) (root : string) (files : list string)
    (pm vm : string) :
  forall (acc : list task) (fn : option string) (w : world fs),
    (forall f, In f files -> exists b, passes os df (w_fs w) root f = Ok b) ->
    exists l fn' w', build_in os df root files pm vm acc fn w = (Ok (l, fn'), w').
Proof.
  induction files as [|f rest IH]; intros acc fn w Hall; cbn [build_in].
  - eexists _, _, _. reflexivity.
  - unfold bind at 1.
    destruct (consider_spec df root f pm vm acc w) as (w1 & -> & Hfs & Hin).
    destruct (Hall f (or_introl eq_refl)) as (b & ->).
    destruct b; apply IH; intros f' Hf'; rewrite Hfs; apply Hall; now right.
Qed.

Lemma build_tree_returns (df : date_filter) (tree : list (string * list string))
    (pm vm : string) :
  forall (acc : list task) (fn : option string) (w : world fs),
    (forall root files f, In (root, files) tree -> In f files ->
                          exists b, passes os df (w_fs w) root f = Ok b) ->
    exists l fn' w', build_tree os df tree pm vm acc fn w = (Ok (l, fn'), w').
Proof.
  induction tree as [|[root files] rest IH]; intros acc fn w Hall; cbn [build_tree].
  - eexists _, _, _. reflexivity.
  - unfold bind at 1.
    destruct (build_in_returns df root files pm vm acc fn w) as (l1 & fn1 & w1 & E1).
    { intros f Hf. apply (Hall root files f); [now left|exact Hf]. }
    rewrite E1. apply build_in_spec in E1 as (Hfs & _ & _). cbn [fst snd].
    apply IH. intros root' files' f Hin Hf. rewrite Hfs.
    apply (Hall root' files' f); [now right|exact Hf].
Qed.

End Lists.

(** X3: the candidates handed to the resolver are exactly the files of the
    walk that are not hidden (no leading dot or underscore) and have a
    photo extension, in whatever letter case, each as its directory joined
    with its name and in the order of the walk.  Gathering them never
    raises; it prints one line and walks the source once. *)
Theorem resolver_candidates :
  forall (fs : Type) (os : OS fs) (source_folder : string) (w : world fs),
    gather_photo_files os source_folder w
    = (Ok (photo_paths (os_walk os source_folder (w_fs w)),
           last_name (os_walk os source_folder (w_fs w)) None),
       emit (SysWalk source_folder)
            (say (Line "Gathering photo files for camera-model detection...") w))
    /\ forall p,
         In p (photo_paths (os_walk os source_folder (w_fs w)))
         <-> exists root files f,
               In (root, files) (os_walk os source_folder (w_fs w))
               /\ In f files
               /\ PyStr.startswith "." f = false
               /\ PyStr.startswith "_" f = false
               /\ In (PyStr.lower (PyStr.splitext_ext f)) photo_extensions
               /\ p = PyStr.join root [f].
Proof.
  intros fs os source_folder w. split.
  - unfold gather_photo_files, bind, print, walk, ret. cbn [w_fs say].
    now rewrite gather_tree_spec.
  - intros p. unfold photo_paths. rewrite in_flat_map. split.
    + intros ([root files] & Hin & Hp). cbn [fst snd] in Hp.
      apply in_map_iff in Hp as (f & <- & Hf). apply filter_In in Hf as (Hf & Hc).
      apply andb_true_iff in Hc as (Hh & Hph). apply negb_true_iff in Hh.
      unfold hidden in Hh. apply orb_false_iff in Hh as (Hdot & Hund).
      unfold is_photo, PyStr.set_in in Hph. apply existsb_exists in Hph as (x & Hx & Hxe).
      apply String.eqb_eq in Hxe as <-.
      exists root, files, f. auto 10.
    + intros (root & files & f & Hin & Hf & Hdot & Hund & Hext & ->).
      exists (root, files). split; [exact Hin|]. cbn [fst snd].
      apply in_map_iff. exists f. split; [reflexivity|]. apply filter_In. split; [exact Hf|].
      apply andb_true_iff. split.
      * unfold hidden. now rewrite Hdot, Hund.
      * unfold is_photo, PyStr.set_in. apply existsb_exists.
        eexists. split; [exact Hext|]. apply String.eqb_refl.
Qed.

(** On the sample card the hidden photo is left out. *)
Lemma resolver_candidates_witness :
  In "/card/a.jpg" (photo_paths [("/card", ["a.jpg"; ".b.jpg"; "_c.JPG"; "d.txt"; "E.CR2"])])
  /\ photo_paths [("/card", ["a.jpg"; ".b.jpg"; "_c.JPG"; "d.txt"; "E.CR2"])]
     = ["/card/a.jpg"; "/card/E.CR2"].
Proof.
  split; [|reflexivity].
  apply (proj2 (resolver_candidates Sim.state Sim.os "/card"
                  (Sim.boot (Sim.mkstate [] [] [] true [] "/card"
                               [("/card", ["a.jpg"; ".b.jpg"; "_c.JPG"; "d.txt"; "E.CR2"])]
                               [] []) []))
               "/card/a.jpg").
  exists "/card", ["a.jpg"; ".b.jpg"; "_c.JPG"; "d.txt"; "E.CR2"], "a.jpg".
  cbn. repeat split; auto.
Defined.

Lemma passing_tasks_unfiltered {fs : Type} (os : OS fs) (df : date_filter) (s : fs)
    (pm vm : string) (tree : list (string * list string)) :
  use_date_filter df = false ->
  passing_tasks os df s pm vm tree
  = flat_map (fun rf =>
                map (fun f => mktask (fst rf) f pm vm photo_extensions video_extensions)
                    (filter (fun f => negb (hidden f)) (snd rf)))
             tree.
Proof.
  intros Hdf. unfold passing_tasks. apply flat_map_ext. intros [root files]. cbn [fst snd].
  f_equal. apply filter_ext. intros f. unfold passes. rewrite Hdf.
  destruct (hidden f); reflexivity.
Qed.

Lemma build_tree_unfiltered {fs : Type} (os : OS fs) (df : date_filter)
    (tree : list (string * list string)) (pm vm : string) :
  use_date_filter df = false ->
  forall (acc : list task) (fn : option string) (w : world fs),
    snd (build_tree os df tree pm vm acc fn w) = w
    /\ exists r, fst (build_tree os df tree pm vm acc fn w) = Ok r.
Proof.
  intros Hdf.
  assert (Hc : forall root f acc (w : world fs),
             exists acc', consider os df root f pm vm acc w = (Ok acc', w)).
  { intros root f acc w. unfold consider. rewrite Hdf.
    destruct (hidden f); eexists; reflexivity. }
  assert (Hin : forall root files acc fn (w : world fs),
             exists r, build_in os df root files pm vm acc fn w = (Ok r, w)).
  { intros root files. induction files as [|f rest IH]; intros acc fn w; cbn [build_in].
    - eexists. reflexivity.
    - unfold bind at 1. destruct (Hc root f acc w) as (acc' & ->). apply IH. }
  induction tree as [|[root files] rest IH]; intros acc fn w; cbn [build_tree].
  - split; [reflexivity|]. eexists. reflexivity.
  - destruct (Hin root files acc fn w) as (r & E).
    rewrite !(bind_ok _ _ _ _ _ E). apply IH.
Qed.

(** X4: without a date filter the list of files to process is every file
    of the walk that is not hidden, photo, video or neither, in the order
    of the walk; building it never raises, reads no metadata and no
    modification time: it prints one line and walks the source once. *)
Theorem unfiltered_list_is_every_visible_file :
  forall (fs : Type) (os : OS fs) (df : date_filter)
         (source_folder pm vm : string) (fn : option string) (w : world fs),
    use_date_filter df = false ->
    build_file_list os df source_folder pm vm fn w
    = (Ok (flat_map
             (fun rf =>
                map (fun f => mktask (fst rf) f pm vm photo_extensions video_extensions)
                    (filter (fun f => negb (hidden f)) (snd rf)))
             (os_walk os source_folder (w_fs w)),
           last_name (os_walk os source_folder (w_fs w)) fn),
       emit (SysWalk source_folder) (say (Line "Building file list for transfer...") w)).
Proof.
  intros fs os df source_folder pm vm fn w Hdf.
  unfold build_file_list, bind, print, walk, ret. cbn [w_fs say].
  set (w1 := emit _ _).
  set (tree := os_walk os source_folder (w_fs w)).
  destruct (build_tree_unfiltered os df tree pm vm Hdf [] fn w1) as (Hw & [l fn'] & Hr).
  destruct (build_tree os df tree pm vm [] fn w1) as [r w2] eqn:E.
  cbn [fst snd] in Hw, Hr. subst r w2.
  apply build_tree_spec in E as (_ & _ & H). destruct (H l fn' eq_refl) as (-> & ->).
  cbn [app]. now rewrite (passing_tasks_unfiltered os df _ pm vm tree Hdf).
Qed.

Lemma unfiltered_list_is_every_visible_file_witness :
  fst (build_file_list Sim.os no_filter "/card" "/p" "/v" None (Sim.boot Demo.card []))
  = Ok (map (fun f => mktask "/card" f "/p" "/v" photo_extensions video_extensions)
            ["a.jpg"; "b.mp4"; "c.jpg"; "notes.txt"],
        Some "notes.txt").
Proof.
  rewrite (unfiltered_list_is_every_visible_file Sim.state Sim.os no_filter "/card" "/p" "/v"
             None (Sim.boot Demo.card []) eq_refl).
  reflexivity.
Defined.

(** X5: with or without a filter, when the second walk returns, the files
    to process are exactly the files of the walk that are not hidden and,
    under a filter, whose resolved date lies in the window, ends included,
    in the order of the walk; the walk leaves the file system and the
    pending input as they were.  It returns whenever every file that is
    not hidden gets a date; an unreadable modification time stops it. *)
Theorem filtered_list_is_the_window :
  forall (fs : Type) (os : OS fs) (df : date_filter)
         (source_folder pm vm : string) (fn : option string) (w : world fs),
    (forall r w',
        build_file_list os df source_folder pm vm fn w = (r, w') ->
        w_fs w' = w_fs w /\ w_stdin w' = w_stdin w
        /\ forall l fn',
             r = Ok (l, fn') ->
             l = passing_tasks os df (w_fs w) pm vm (os_walk os source_folder (w_fs w))
             /\ forall t,
                  In t l
                  <-> exists root files f,
                        In (root, files) (os_walk os source_folder (w_fs w))
                        /\ In f files
                        /\ hidden f = false
                        /\ (use_date_filter df = true ->
                            exists d, resolved_date os (w_fs w) root f = Ok d
                                      /\ in_window df d = Ok true)
                        /\ t = mktask root f pm vm photo_extensions video_extensions)
    /\ ((forall root files f,
            In (root, files) (os_walk os source_folder (w_fs w)) -> In f files ->
            exists b, passes os df (w_fs w) root f = Ok b) ->
        exists l fn' w',
          build_file_list os df source_folder pm vm fn w = (Ok (l, fn'), w')).
Proof.
  intros fs os df source_folder pm vm fn w. split.
  - intros r w'. unfold build_file_list, bind, print, walk, ret. cbn [w_fs say].
    intros E. apply build_tree_spec in E as (Hfs & Hin & H). cbn in Hfs, Hin.
    split; [exact Hfs|]. split; [exact Hin|].
    intros l fn' Hr. destruct (H l fn' Hr) as (-> & _). cbn [app w_fs emit say].
    split; [reflexivity|].
    intros t. unfold passing_tasks. rewrite in_flat_map. split.
    + intros ([root files] & Hin' & Ht). cbn [fst snd] in Ht.
      apply in_map_iff in Ht as (f & <- & Hf). apply filter_In in Hf as (Hf & Hp).
      exists root, files, f. split; [exact Hin'|]. split; [exact Hf|].
      unfold passes in Hp. destruct (hidden f); [discriminate|]. split; [reflexivity|].
      split; [|reflexivity]. intros Hdf. rewrite Hdf in Hp.
      destruct (resolved_date os (w_fs w) root f) as [d|e];
        [|cbn in Hp; discriminate].
      exists d. split; [reflexivity|]. cbv beta iota in Hp. cbn [res_bind] in Hp.
      destruct (in_window df d) as [[]|]; cbn in Hp;
        [reflexivity|discriminate|discriminate].
    + intros (root & files & f & Hin' & Hf & Hh & Hd & ->).
      exists (root, files). split; [exact Hin'|]. cbn [fst snd].
      apply in_map_iff. exists f. split; [reflexivity|]. apply filter_In. split; [exact Hf|].
      unfold passes. rewrite Hh. destruct (use_date_filter df); [|reflexivity].
      destruct (Hd eq_refl) as (d & -> & Hw). cbn [res_bind]. now rewrite Hw.
  - intros Hall. unfold build_file_list, bind, print, walk, ret. cbn [w_fs say].
    apply build_tree_returns. exact Hall.
Qed.

(** The sample card under the filter 01/06/2024: only the photo taken on
    that day is kept. *)
Lemma filtered_list_is_the_window_witness :
  exists l fn' w',
    build_file_list Sim.os
      (mkfilter true (Some (Demo.d 2024 6 1)) (Some (Demo.d 2024 6 1)))
      "/card" "/p" "/v" None (Sim.boot Demo.card [])
    = (Ok (l, fn'), w').
Proof.
  apply (proj2 (filtered_list_is_the_window Sim.state Sim.os
                  (mkfilter true (Some (Demo.d 2024 6 1)) (Some (Demo.d 2024 6 1)))
                  "/card" "/p" "/v" None (Sim.boot Demo.card []))).
  intros root files f [[= <- <-]|[]] Hf.
  cbn in Hf. destruct Hf as [<-|[<-|[<-|[<-|[]]]]]; eexists; vm_compute; reflexivity.
Defined.

Lemma sample_filtered_list :
  fst (build_file_list Sim.os
         (mkfilter true (Some (Demo.d 2024 6 1)) (Some (Demo.d 2024 6 1)))
         "/card" "/p" "/v" None (Sim.boot Demo.card []))
  = Ok ([mktask "/card" "a.jpg" "/p" "/v" photo_extensions video_extensions],
        Some "notes.txt").
Proof. reflexivity. Qed.

(** *** The transfer stage, file by file *)

Section TransferNames.
Context {fs : Type} (os : OS fs).

(** A file that is neither photo nor video is answered at once. *)
Lemma process_file_unsupported (t : task) (w : world fs) :
  target_folder t = None -> process_file os t w = (Ok (false, t_file_name t), w).
Proof. intros H. unfold process_file. now rewrite H. Qed.

Lemma collect_skipped (completed : list task) :
  forall (s s' : summary) (fn fn' : option string) (w w' : world fs),
    collect os completed (s, fn) w = (Ok (s', fn'), w') ->
    exists more,
      skipped_files s' = (skipped_files s ++ more)%list
      /\ (forall t, In t completed -> target_folder t = None -> In (t_file_name t) more)
      /\ (forallb returned (outcomes os completed w) = true ->
          more = failed_names (outcomes os completed w)).
Proof.
  induction completed as [|t rest IH]; intros s s' fn fn' w w'.
  - intros [= <- _ _]. exists []. rewrite app_nil_r. split; [reflexivity|].
    split; [intros t []|reflexivity].
  - rewrite collect_step. cbn [outcomes].
    destruct (target_folder t) as [folder|] eqn:Et.
    + destruct (process_file os t w) as [[[[] name]|e] w1] eqn:Ep.
      * intros H. apply IH in H as (more & Hs & Hun & Hret). cbn [skipped_files] in Hs.
        exists more. split; [exact Hs|]. split.
        -- intros t' [<-|Hin] Ht'; [congruence|auto].
        -- cbn [forallb returned andb failed_names flat_map app]. exact Hret.
      * intros H. apply IH in H as (more & Hs & Hun & Hret). cbn [skipped_files] in Hs.
        exists (name :: more). split; [now rewrite Hs, <- app_assoc|]. split.
        -- intros t' [<-|Hin] Ht'; [congruence|right; auto].
        -- cbn [forallb returned andb failed_names flat_map app].
           intros Hr. now rewrite (Hret Hr).
      * destruct fn as [name|]; [|discriminate].
        intros H. apply IH in H as (more & Hs & Hun & Hret). cbn [skipped_files] in Hs.
        exists (name :: more). split; [now rewrite Hs, <- app_assoc|]. split.
        -- intros t' [<-|Hin] Ht'; [congruence|right; auto].
        -- cbn [forallb returned andb]. discriminate.
    + rewrite (process_file_unsupported t w Et).
      intros H. apply IH in H as (more & Hs & Hun & Hret). cbn [skipped_files] in Hs.
      exists (t_file_name t :: more). split; [now rewrite Hs, <- app_assoc|]. split.
      * intros t' [<-|Hin] Ht'; [now left|right; auto].
      * cbn [forallb returned andb failed_names flat_map app].
        intros Hr. now rewrite (Hret Hr).
Qed.

(** With no exception among the futures the loop never reaches its
    [except] branch. *)
Lemma collect_returns_quietly (completed : list task) :
  forall (s : summary) (fn : option string) (w : world fs),
    forallb returned (outcomes os completed w) = true ->
    exists s' fn' w', collect os completed (s, fn) w = (Ok (s', fn'), w').
Proof.
  induction completed as [|t rest IH]; intros s fn w.
  - intros _. eexists _, _, _. reflexivity.
  - rewrite collect_step. cbn [outcomes].
    destruct (process_file os t w) as [[[[] name]|e] w1]; cbn [forallb returned andb].
    + apply IH.
    + apply IH.
    + discriminate.
Qed.

Lemma outcomes_names (completed : list task) :
  forall w : world fs,
    forallb returned (outcomes os completed w) = true ->
    Forall2 (fun t r => exists b, r = Ok (b, t_file_name t))
            completed (outcomes os completed w).
Proof.
  induction completed as [|t rest IH]; intros w; cbn [outcomes]; [constructor|].
  destruct (process_file os t w) as [[[b name]|e] w1] eqn:Ep; cbn [forallb returned andb].
  - intros H. constructor; [|now apply IH].
    exists b. now rewrite (process_file_name os t w w1 b name Ep).
  - discriminate.
Qed.

End TransferNames.

(** X6: a file whose extension is neither a photo nor a video extension
    is answered [(False, name)] without any call to the operating system,
    and whenever the transfer returns, its own name is in the list of
    skipped files, whatever the order in which the copies complete and
    whatever becomes of the other files. *)
Theorem unsupported_files_are_listed :
  forall (fs : Type) (os : OS fs) (as_completed : list task -> list task)
         (files_to_process : list task) (file_name : option string)
         (w w' : world fs) (s : summary),
    Permutation (as_completed files_to_process) files_to_process ->
    transfer os as_completed files_to_process file_name w = (Ok s, w') ->
    forall t,
      In t files_to_process ->
      target_folder t = None ->
      In (t_file_name t) (skipped_files s)
      /\ forall u : world fs, process_file os t u = (Ok (false, t_file_name t), u).
Proof.
  intros fs os as_completed files fn w w' s Hperm Htr t Hin Ht.
  split; [|intros u; now apply process_file_unsupported].
  unfold transfer, bind in Htr.
  destruct (collect os (as_completed files) (mksummary 0 [], fn) w)
    as [[[s1 fn1]|e] w1] eqn:E; [|discriminate].
  cbn in Htr. injection Htr as <- <-.
  apply collect_skipped in E as (more & Hs & Hun & _).
  rewrite Hs. cbn [skipped_files app]. apply Hun; [|exact Ht].
  eapply Permutation_in; [apply Permutation_sym; exact Hperm|exact Hin].
Qed.

Lemma unsupported_files_are_listed_witness :
  In "notes.txt"
     (skipped_files (mksummary 0 ["notes.txt"]))
  /\ forall u : world Sim.state,
       process_file Sim.os (Demo.task_for "notes.txt") u = (Ok (false, "notes.txt"), u).
Proof.
  refine (unsupported_files_are_listed Sim.state Sim.os (@rev task)
            [Demo.task_for "notes.txt"] None
            (Sim.boot Demo.card []) (Sim.boot Demo.card []) (mksummary 0 ["notes.txt"])
            _ _ (Demo.task_for "notes.txt") _ _).
  - apply Permutation_refl.
  - reflexivity.
  - now left.
  - reflexivity.
Defined.

(** X7: when no worker raises, the transfer returns whatever [file_name]
    held, every future holds the name of its own file, the list of
    skipped files is exactly the names returned with [False], in the order
    of completion, and the success count is the number of futures holding
    [True]. *)
Theorem skipped_list_names_the_failed_files :
  forall (fs : Type) (os : OS fs) (as_completed : list task -> list task)
         (files_to_process : list task) (file_name : option string) (w : world fs),
    forallb returned (outcomes os (as_completed files_to_process) w) = true ->
    exists s w',
      transfer os as_completed files_to_process file_name w = (Ok s, w')
      /\ skipped_files s = failed_names (outcomes os (as_completed files_to_process) w)
      /\ success_count s
         = Z.of_nat (List.length (filter succeeded
                                         (outcomes os (as_completed files_to_process) w)))
      /\ Forall2 (fun t r => exists b, r = Ok (b, t_file_name t))
                 (as_completed files_to_process)
                 (outcomes os (as_completed files_to_process) w).
Proof.
  intros fs os as_completed files fn w Hret.
  destruct (collect_returns_quietly os (as_completed files) (mksummary 0 []) fn w Hret)
    as (s & fn' & w' & E).
  exists s, w'. split; [unfold transfer, bind; now rewrite E|].
  pose proof (collect_skipped os _ _ _ _ _ _ _ E) as (more & Hs & _ & Hm).
  pose proof (collect_counts os _ _ _ _ _ _ _ E) as (Hc & _ & _).
  cbn [skipped_files success_count app] in *.
  split; [now rewrite Hs, (Hm Hret)|]. split; [lia|].
  now apply outcomes_names.
Qed.

Lemma skipped_list_names_the_failed_files_witness :
  exists s w',
    transfer Sim.os (@rev task)
      [Demo.task_for "a.jpg"; Demo.task_for "b.jpg"; Demo.task_for "notes.txt"]
      None (Sim.boot Demo.truncating []) = (Ok s, w')
    /\ skipped_files s = ["notes.txt"; "b.jpg"].
Proof.
  destruct (skipped_list_names_the_failed_files Sim.state Sim.os (@rev task)
              [Demo.task_for "a.jpg"; Demo.task_for "b.jpg"; Demo.task_for "notes.txt"]
              None (Sim.boot Demo.truncating []) eq_refl)
    as (s & w' & E & Hs & _).
  exists s, w'. split; [exact E|exact Hs].
Defined.

(** X8: in [main] the transfer loop always comes to its end: whenever
    lines 206-248 hand over a list of files, [file_name] is bound if the
    list is not empty, the loop returns a summary for every order of
    completion, and successes plus skipped files make up the files handed
    over. *)
Theorem main_transfer_counts_every_file :
  forall (fs : Type) (os : OS fs) (df : date_filter)
         (source_folder event_folder suffix : string) (fn0 : option string)
         (as_completed : list task -> list task)
         (files : list task) (fn : option string) (w w1 : world fs),
    prepare_destination os df source_folder event_folder suffix fn0 w
    = (Ok (files, fn), w1) ->
    Permutation (as_completed files) files ->
    (files <> [] -> fn <> None)
    /\ exists s w2,
         transfer os as_completed files fn w1 = (Ok s, w2)
         /\ success_count s + Z.of_nat (List.length (skipped_files s))
            = Z.of_nat (List.length files).
Proof.
  intros fs os df source_folder event_folder suffix fn0 as_completed files fn w w1 Hp Hperm.
  assert (Hfn : files <> [] -> fn <> None).
  { unfold prepare_destination in Hp. unfold bind at 1 in Hp.
    destruct (create_directory os _ w) as [[[]|e] wa]; [|discriminate].
    unfold bind at 1 in Hp.
    destruct (build_file_list os df source_folder _ _ fn0 wa) as [[[l f]|e] wb] eqn:Eb;
      [|discriminate].
    cbn [fst snd] in Hp. unfold bind at 1 in Hp.
    destruct (create_main_folders os _ _ _ l wb) as [[[]|e] wc]; [|discriminate].
    unfold bind, print, ret in Hp. injection Hp as <- <- _.
    eapply build_file_list_binds_name; eauto. }
  split; [exact Hfn|].
  now apply transfer_counts_every_file.
Qed.

Lemma main_transfer_counts_every_file_witness :
  exists s w2,
    transfer Sim.os (@rev task)
      [Demo.task_for "a.jpg"; Demo.task_for "b.mp4"] (Some "b.mp4") (snd prepared_run)
    = (Ok s, w2)
    /\ success_count s + Z.of_nat (List.length (skipped_files s)) = 2.
Proof.
  refine (proj2 (main_transfer_counts_every_file Sim.state Sim.os no_filter
                   "/card" "/ev" "EOS_R5_Jane" None (@rev task)
                   [Demo.task_for "a.jpg"; Demo.task_for "b.mp4"] (Some "b.mp4")
                   (Sim.boot Demo.locked []) (snd prepared_run) _ _)).
  - vm_compute. reflexivity.
  - apply Permutation_sym, Permutation_rev.
Defined.
